(** * FileSystemBlobLoader: a shallow embedding and its specification

    Source: [langchain/document_loaders/blob_loaders/file_system.py].

    The loader walks a directory with [pathlib.Path.glob], keeps the regular
    files whose suffix is accepted, and yields one [Blob] per kept path.  All
    three methods of the class are generators or loops over generators, so
    the embedding has three layers:

    - [Py]: Python exceptions and generator objects, the latter as finite
      resumptions that record the work done inside every [next()];
    - [Pathlib]: the part of [pathlib] the loader calls ([Path(str)],
      [suffix], [is_file], [glob]) over a directory tree;
    - the loader itself, over an arbitrary traversal first and over the
      [Pathlib] model afterwards. *)

From Stdlib Require Import String Ascii List Bool Arith Lia.
From stdpp Require Import base decidable gmap strings list.

(* ===================================================================== *)
(** * Python: exceptions, results, generators *)
(* ===================================================================== *)

Module Py.

(** The exceptions that can reach the caller of the loader. *)
Inductive exn :=
| TypeError (msg : string)
| ValueError (msg : string)
| IndexError (msg : string)
| NotImplementedError (msg : string)
| OSError (msg : string).

(** A call either returns or raises. *)
Inductive result (A : Type) :=
| Ok (a : A)
| Raised (e : exn).
Arguments Ok {A} a.
Arguments Raised {A} e.

Definition result_map {A B} (f : A -> B) (r : result A) : result B :=
  match r with
  | Ok a => Ok (f a)
  | Raised e => Raised e
  end.

Section Generators.

(** [Ev] is the type of observable actions (file-system calls, calls to
    collaborators).  A generator object is the finite tree of what its
    successive [next()] calls do: the actions performed during the call,
    then a yielded item and the suspended rest, or [StopIteration], or an
    exception.  Nothing recorded below a [GYield] has happened before the
    consumer asks for the next item. *)
Context {Ev : Type}.

Inductive gen (A : Type) :=
| GYield (work : list Ev) (item : A) (rest : gen A)
| GStop (work : list Ev)
| GRaise (work : list Ev) (e : exn).
Arguments GYield {A} work item rest.
Arguments GStop {A} work.
Arguments GRaise {A} work e.

(** What a consumer sees: an action being performed, or an item being
    handed over. *)
Inductive obs (A : Type) :=
| Did (e : Ev)
| Handed (a : A).
Arguments Did {A} e.
Arguments Handed {A} a.

Context {A : Type}.

(** Items handed over when the generator is consumed to its end. *)
Fixpoint items (g : gen A) : list A :=
  match g with
  | GYield _ a rest => a :: items rest
  | GStop _ | GRaise _ _ => []
  end.

(** How the full consumption ends: [None] for [StopIteration]. *)
Fixpoint outcome (g : gen A) : option exn :=
  match g with
  | GYield _ _ rest => outcome rest
  | GStop _ => None
  | GRaise _ e => Some e
  end.

(** All actions of a full consumption, in order. *)
Fixpoint trace (g : gen A) : list Ev :=
  match g with
  | GYield w _ rest => w ++ trace rest
  | GStop w | GRaise w _ => w
  end.

(** Actions and hand-overs of a full consumption, interleaved. *)
Fixpoint observe (g : gen A) : list (obs A) :=
  match g with
  | GYield w a rest => map Did w ++ Handed a :: observe rest
  | GStop w | GRaise w _ => map Did w
  end.

(** [list(g)]: the items, unless the generator raises. *)
Definition py_list (g : gen A) : result (list A) :=
  match outcome g with
  | None => Ok (items g)
  | Some e => Raised e
  end.

(** The consumer calls [next()] until it holds [k] items (or the generator
    is finished) and then abandons it.  The result is the work done, the
    items received, and the suspended generator. *)
Fixpoint advance (k : nat) (g : gen A) : list Ev * list A * gen A :=
  match k with
  | 0 => ([], [], g)
  | S k' =>
      match g with
      | GYield w a rest =>
          let '(w', got, g') := advance k' rest in (w ++ w', a :: got, g')
      | GStop w | GRaise w _ => (w, [], GStop [])
      end
  end.

(** A generator that first replays the given [next()] steps and then
    behaves like [rest]. *)
Fixpoint prepend (steps : list (list Ev * A)) (rest : gen A) : gen A :=
  match steps with
  | [] => rest
  | (w, a) :: steps' => GYield w a (prepend steps' rest)
  end.

(** A generator over a list that performs [cost a] to produce [a]. *)
Definition gen_of_list (cost : A -> list Ev) (l : list A) : gen A :=
  prepend (map (fun a => (cost a, a)) l) (GStop []).

End Generators.

Arguments gen Ev A : clear implicits.
Arguments obs Ev A : clear implicits.
Arguments GYield {Ev A} work item rest.
Arguments GStop {Ev A} work.
Arguments GRaise {Ev A} work e.
Arguments Did {Ev A} e.
Arguments Handed {Ev A} a.

End Py.

(* ===================================================================== *)
(** * pathlib (CPython 3.8 - 3.10, POSIX flavour) *)
(* ===================================================================== *)

Module Pathlib.
Import Py.

(** ** Pure paths *)

(** A path object: [_root] ([""], ["/"] or ["//"]) and the segments after
    it.  There is no drive on POSIX. *)
Record Path := mkPath { anchor : string; segs : list string }.

#[global] Instance Path_eq_dec : EqDecision Path.
Proof. solve_decision. Defined.

Definition sep : ascii := "/"%char.

(** [part.lstrip(sep)] *)
Fixpoint lstrip_sep (s : string) : string :=
  match s with
  | String c s' => if Ascii.eqb c sep then lstrip_sep s' else s
  | EmptyString => s
  end.

(** [_PosixFlavour.splitroot]: exactly two leading slashes are kept, any
    other number collapses to one. *)
Definition splitroot (part : string) : string * string :=
  match part with
  | String c _ =>
      if Ascii.eqb c sep then
        let stripped_part := lstrip_sep part in
        if String.length part - String.length stripped_part =? 2
        then ("//", stripped_part)
        else ("/", stripped_part)
      else ("", part)
  | EmptyString => ("", part)
  end.

(** [rel.split(sep)] *)
Fixpoint split_sep (s : string) : list string :=
  match s with
  | EmptyString => [EmptyString]
  | String c s' =>
      if Ascii.eqb c sep then EmptyString :: split_sep s'
      else match split_sep s' with
           | x :: xs => String c x :: xs
           | [] => [String c EmptyString]
           end
  end.

(** [_Flavour.parse_parts] on a single argument: the root and the segments
    that are neither empty nor ["."]. *)
Definition parse_parts (part : string) : string * list string :=
  if decide (part = "") then ("", [])
  else
    let '(root, rel) := splitroot part in
    (root, List.filter (fun x => negb (String.eqb x "" || String.eqb x "."))
                       (split_sep rel)).

(** [Path(s)] for a string [s]. *)
Definition Path_of_str (s : string) : Path :=
  let '(root, parts) := parse_parts s in mkPath root parts.

(** [parent_path._make_child_relpath(name)] *)
Definition make_child_relpath (parent_path : Path) (name : string) : Path :=
  mkPath (anchor parent_path) (segs parent_path ++ [name]).

(** [PurePath.name]: the final segment, [""] when there is none. *)
Definition name (p : Path) : string := List.last (segs p) "".

(** [name.rfind('.')]; [None] stands for [-1]. *)
Fixpoint rfind_dot (s : string) : option nat :=
  match s with
  | EmptyString => None
  | String c s' =>
      match rfind_dot s' with
      | Some i => Some (S i)
      | None => if Ascii.eqb c "." then Some 0 else None
      end
  end.

(** [PurePath.suffix]:
<<
    name = self.name
    i = name.rfind('.')
    if 0 < i < len(name) - 1:
        return name[i:]
    else:
        return ''
>> *)
Definition suffix (p : Path) : string :=
  let name := name p in
  match rfind_dot name with
  | Some i =>
      if (0 <? i) && (i <? String.length name - 1)
      then String.substring i (String.length name - i) name
      else ""
  | None => ""
  end.

(** ** The directory tree *)

#[local] Set Warnings "-register-all".

Inductive node :=
| RegularFile
| SpecialFile
| Directory (entries : list (string * node)).

(** A file system: the tree under ["/"] and the working directory against
    which relative paths are resolved.  Entries are listed in the order
    [os.scandir] returns them.  Symbolic links and permissions are not
    part of this model. *)
Record filesystem := mkFs { fs_root : node; fs_cwd : list string }.

Fixpoint entry (name : string) (entries : list (string * node)) : option node :=
  match entries with
  | [] => None
  | (n, child) :: entries' =>
      if String.eqb n name then Some child else entry name entries'
  end.

(** Path resolution from [cur], whose ancestors are [above] (nearest
    first); [".."] steps up and stays at the top of the tree. *)
Fixpoint walk (above : list node) (cur : node) (names : list string)
  : option node :=
  match names with
  | [] => Some cur
  | n :: names' =>
      match cur with
      | Directory entries =>
          if String.eqb n ".." then
            match above with
            | [] => walk [] cur names'
            | up :: above' => walk above' up names'
            end
          else
            match entry n entries with
            | Some child => walk (cur :: above) child names'
            | None => None
            end
      | _ => None
      end
  end.

(** [os.stat(p)], when it succeeds. *)
Definition stat (fs : filesystem) (p : Path) : option node :=
  walk [] (fs_root fs)
       (if decide (anchor p = "") then fs_cwd fs ++ segs p else segs p).

Definition is_file (fs : filesystem) (p : Path) : bool :=
  match stat fs p with Some RegularFile => true | _ => false end.

Definition is_dir (fs : filesystem) (p : Path) : bool :=
  match stat fs p with Some (Directory _) => true | _ => false end.

Definition exists_ (fs : filesystem) (p : Path) : bool :=
  match stat fs p with Some _ => true | None => false end.

(** [list(os.scandir(p))] *)
Definition scandir (fs : filesystem) (p : Path)
  : option (list (string * node)) :=
  match stat fs p with Some (Directory entries) => Some entries | _ => None end.

(** ** fnmatch *)

(** [fnmatch.translate] compiles a segment pattern to a regular expression
    that is then matched against the whole entry name.  The model keeps the
    parsed pattern instead of the regular expression. *)
Inductive class_item :=
| CChar (c : ascii)
| CRange (lo hi : ascii).

Inductive tok :=
| TStar
| TQuest
| TClass (negated : bool) (members : list class_item)
| TLit (c : ascii).

(** The scan for the bracket that closes a class, on the characters after
    the opening one: an optional ['!'], then an optional [']'] taken
    literally, then everything up to the next [']'].  Returns the length of
    the class body. *)
Fixpoint find_close (s : list ascii) : option nat :=
  match s with
  | [] => None
  | c :: s' => if Ascii.eqb c "]" then Some 0 else S <$> find_close s'
  end.

Definition class_end (s : list ascii) : option nat :=
  let '(j1, s1) :=
    match s with
    | c :: s' => if Ascii.eqb c "!" then (1, s') else (0, s)
    | [] => (0, s)
    end in
  let '(j2, s2) :=
    match s1 with
    | c :: s' => if Ascii.eqb c "]" then (S j1, s') else (j1, s1)
    | [] => (j1, s1)
    end in
  (fun j => j2 + j) <$> find_close s2.

(** Members of a class body: [lo-hi] is a range, anything else stands for
    itself. *)
Fixpoint class_members (stuff : list ascii) : list class_item :=
  match stuff with
  | [] => []
  | lo :: rest =>
      match rest with
      | dash :: hi :: rest' =>
          if Ascii.eqb dash "-" then CRange lo hi :: class_members rest'
          else CChar lo :: class_members rest
      | _ => CChar lo :: class_members rest
      end
  end.

Definition class_of (stuff : list ascii) : tok :=
  match stuff with
  | c :: stuff' =>
      if Ascii.eqb c "!" then TClass true (class_members stuff')
      else TClass false (class_members stuff)
  | [] => TClass false []
  end.

(** [translate]: [skip] counts the characters of a class body (and its
    closing bracket) that were consumed with the opening bracket. *)
Fixpoint translate_from (skip : nat) (pat : list ascii) : list tok :=
  match pat with
  | [] => []
  | c :: pat' =>
      match skip with
      | S k => translate_from k pat'
      | 0 =>
          if Ascii.eqb c "*" then TStar :: translate_from 0 pat'
          else if Ascii.eqb c "?" then TQuest :: translate_from 0 pat'
          else if Ascii.eqb c "[" then
            match class_end pat' with
            | None => TLit c :: translate_from 0 pat'
            | Some j => class_of (take j pat') :: translate_from (S j) pat'
            end
          else TLit c :: translate_from 0 pat'
      end
  end.

Definition translate (pat : string) : list tok :=
  translate_from 0 (list_ascii_of_string pat).

Definition class_item_matches (c : ascii) (it : class_item) : bool :=
  match it with
  | CChar d => Ascii.eqb c d
  | CRange lo hi =>
      (nat_of_ascii lo <=? nat_of_ascii c) && (nat_of_ascii c <=? nat_of_ascii hi)
  end.

(** [re.fullmatch] of the translated pattern. *)
Fixpoint matches (toks : list tok) (s : list ascii) : bool :=
  match toks with
  | [] => match s with [] => true | _ => false end
  | TStar :: toks' =>
      (fix star (s : list ascii) : bool :=
         matches toks' s || match s with [] => false | _ :: s' => star s' end) s
  | TQuest :: toks' =>
      match s with _ :: s' => matches toks' s' | [] => false end
  | TClass negated members :: toks' =>
      match s with
      | c :: s' =>
          xorb negated (existsb (class_item_matches c) members) && matches toks' s'
      | [] => false
      end
  | TLit d :: toks' =>
      match s with c :: s' => Ascii.eqb c d && matches toks' s' | [] => false end
  end.

Definition fnmatch (toks : list tok) (name : string) : bool :=
  matches toks (list_ascii_of_string name).

(** ** Selectors *)

(** One selector per pattern segment, chained through [successor]:
    [_TerminatingSelector], [_PreciseSelector], [_WildcardSelector] (with
    its compiled pattern) and [_RecursiveWildcardSelector]. *)
Inductive selector :=
| Terminating
| Precise (name : string) (successor : selector)
| Wildcard (pat : list tok) (successor : selector)
| RecursiveWildcard (successor : selector).

(** [_Selector.__init__]: a selector with child parts only looks at
    directories. *)
Definition dironly (successor : selector) : bool :=
  match successor with Terminating => false | _ => true end.

(** ["**" in pat] *)
Fixpoint has_double_star (s : string) : bool :=
  match s with
  | String c1 ((String c2 _) as s') =>
      (Ascii.eqb c1 "*" && Ascii.eqb c2 "*") || has_double_star s'
  | _ => false
  end.

(** [_is_wildcard_pattern]: ['*'], ['?'] or ['['] occurs in the segment. *)
Definition is_wildcard_pattern (pat : string) : bool :=
  existsb (fun c => Ascii.eqb c "*" || Ascii.eqb c "?" || Ascii.eqb c "[")
          (list_ascii_of_string pat).

(** [_make_selector(pattern_parts)] for [pattern_parts = pat :: child_parts].
    The class of the first segment is chosen, and a misplaced ["**"]
    rejected, before the successor is built. *)
Fixpoint make_selector (pat : string) (child_parts : list string)
  : result selector :=
  let successor :=
    match child_parts with
    | [] => Ok Terminating
    | pat' :: child_parts' => make_selector pat' child_parts'
    end in
  if String.eqb pat "**" then result_map RecursiveWildcard successor
  else if has_double_star pat then
    Raised (ValueError "Invalid pattern: '**' can only be an entire path component")
  else if is_wildcard_pattern pat then
    result_map (Wildcard (translate pat)) successor
  else result_map (Precise pat) successor.

Definition is_directory (n : node) : bool :=
  match n with Directory _ => true | _ => false end.

(** [_RecursiveWildcardSelector._iterate_directories]: the directory itself,
    then, for every entry that is a directory, that directory's own
    iteration.  [n] is the node found at [parent_path]. *)
Fixpoint iterate_directories (parent_path : Path) (n : node) : list Path :=
  parent_path ::
  match n with
  | Directory entries =>
      (fix each (entries : list (string * node)) : list Path :=
         match entries with
         | [] => []
         | (name, child) :: entries' =>
             (if is_directory child
              then iterate_directories (make_child_relpath parent_path name) child
              else [])
             ++ each entries'
         end) entries
  | _ => []
  end.

(** The [yielded] set of the recursive selector: a path is passed on the
    first time it is produced only. *)
Fixpoint yield_unseen (yielded : list Path) (ps : list Path) : list Path :=
  match ps with
  | [] => []
  | p :: ps' =>
      if decide (p ∈ yielded) then yield_unseen yielded ps'
      else p :: yield_unseen (p :: yielded) ps'
  end.

(** [selector._select_from(parent_path, ...)]: the paths the selector chain
    produces below [parent_path], in order.  Every caller has checked that
    [parent_path] is a directory before a non-terminating selector runs, so
    the listing of a non-directory (an [OSError] in Python) is never
    reached; the model gives it no paths. *)
Fixpoint _select_from (fs : filesystem) (sel : selector) (parent_path : Path)
  : list Path :=
  match sel with
  | Terminating => [parent_path]
  | Precise name successor =>
      let path := make_child_relpath parent_path name in
      if (if dironly successor then is_dir fs path else exists_ fs path)
      then _select_from fs successor path
      else []
  | Wildcard pat successor =>
      match scandir fs parent_path with
      | Some entries =>
          flat_map
            (fun '(name, child) =>
               if dironly successor && negb (is_directory child) then []
               else if fnmatch pat name
                    then _select_from fs successor (make_child_relpath parent_path name)
                    else [])
            entries
      | None => []
      end
  | RecursiveWildcard successor =>
      yield_unseen []
        (flat_map (_select_from fs successor)
           (match stat fs parent_path with
            | Some n => iterate_directories parent_path n
            | None => []
            end))
  end.

(** [Path.glob(pattern)], as the outcome of consuming the generator it
    returns: the paths in order, or the exception raised before the first
    one.
<<
    if not pattern:
        raise ValueError("Unacceptable pattern: {!r}".format(pattern))
    drv, root, pattern_parts = self._flavour.parse_parts((pattern,))
    if drv or root:
        raise NotImplementedError("Non-relative patterns are unsupported")
    selector = _make_selector(tuple(pattern_parts), self._flavour)
    for p in selector.select_from(self):
        yield p
>>
    [select_from] returns an empty iterator unless [self] is a directory,
    and [_make_selector] indexes the first element of [pattern_parts]. *)
Definition glob (fs : filesystem) (self : Path) (pattern : string)
  : result (list Path) :=
  if decide (pattern = "") then Raised (ValueError "Unacceptable pattern: ''")
  else
    let '(root, pattern_parts) := parse_parts pattern in
    if negb (String.eqb root "") then
      Raised (NotImplementedError "Non-relative patterns are unsupported")
    else
      match pattern_parts with
      | [] => Raised (IndexError "tuple index out of range")
      | pat :: child_parts =>
          match make_selector pat child_parts with
          | Raised e => Raised e
          | Ok selector =>
              Ok (if is_dir fs self then _select_from fs selector self else [])
          end
      end.

End Pathlib.

(* ===================================================================== *)
(** * The loader *)
(* ===================================================================== *)

Import Py.
Abbreviation Path := Pathlib.Path.

(** What the loader does to the outside world: the glob generator touching
    a directory entry, [path.is_file()], [Blob.from_path], and the three
    calls on the [tqdm] progress bar (creation with a total, [update(n)],
    and the exit of the [with] block). *)
Inductive event :=
| GlobWork (p : Path)
| IsFile (p : Path)
| FromPath (p : Path)
| TqdmOpen (total : nat)
| TqdmUpdate (n : nat)
| TqdmClose.

(** The values a caller may pass as [path]. *)
Inductive pyobj :=
| PyNone
| PyBool (b : bool)
| PyInt (n : Z)
| PyBytes (b : string)
| PyStr (s : string)
| PyPath (p : Path).

(** The attributes set by [__init__]. *)
Record FileSystemBlobLoader := mkLoader {
  path : Path;
  glob : string;
  suffixes : gset string;
  show_progress : bool
}.

(** The default of the [glob] keyword. *)
Definition default_glob : string := "**/[!.]*".

(** [__init__(self, path, *, glob, suffixes, show_progress)].  The result
    comes with the (empty) list of actions performed. *)
Definition __init__ (path : pyobj) (glob : string)
    (suffixes : option (list string)) (show_progress : bool)
  : list event * result FileSystemBlobLoader :=
  let _path :=
    match path with
    | PyPath p => Ok p
    | PyStr s => Ok (Pathlib.Path_of_str s)
    | _ => Raised (TypeError "Expected str or Path")
    end in
  match _path with
  | Raised e => ([], Raised e)
  | Ok _path =>
      ([], Ok {| path := _path;
                 glob := glob;
                 suffixes := list_to_set (default [] suffixes);
                 show_progress := show_progress |})
  end.

(** [self.suffixes and path.suffix not in self.suffixes] *)
Definition suffix_rejected (self : FileSystemBlobLoader) (p : Path) : bool :=
  bool_decide (suffixes self ≠ ∅)
  && negb (bool_decide (Pathlib.suffix p ∈ suffixes self)).

Section Loader.

(** The collaborators: the blob factory [Blob.from_path] of [schema.py],
    which builds the record from the path without opening the file and is
    taken as a total function, and the file system as [pathlib] presents
    it.  [Path_glob p pattern] is the generator
    returned by [p.glob(pattern)], whose work is the list of entries it
    touches; it is a function of its arguments only, that is, the tree does
    not change between two traversals. *)
Context {Blob : Type}.
Variable Blob_from_path : Path -> Blob.
Variable Path_glob : Path -> string -> gen Path Path.
Variable Path_is_file : Path -> result bool.

(** The body of the loop of [_yield_paths], with [paths] the suspended glob
    generator and [done] the work done since the last [yield]:
<<
    for path in paths:
        if path.is_file():
            if self.suffixes and path.suffix not in self.suffixes:
                continue
            yield path
>> *)
Fixpoint yield_paths_loop (self : FileSystemBlobLoader) (done : list event)
    (paths : gen Path Path) : gen event Path :=
  match paths with
  | GYield w path rest =>
      let done := done ++ map GlobWork w ++ [IsFile path] in
      match Path_is_file path with
      | Raised e => GRaise done e
      | Ok false => yield_paths_loop self done rest
      | Ok true =>
          if suffix_rejected self path then yield_paths_loop self done rest
          else GYield done path (yield_paths_loop self [] rest)
      end
  | GStop w => GStop (done ++ map GlobWork w)
  | GRaise w e => GRaise (done ++ map GlobWork w) e
  end.

(** [_yield_paths]: [paths = self.path.glob(self.glob)], then the loop. *)
Definition _yield_paths (self : FileSystemBlobLoader) : gen event Path :=
  yield_paths_loop self [] (Path_glob (path self) (glob self)).

(** The loop of [count_matching_files] over a generator, from [num]. *)
Fixpoint count_loop {A} (num : nat) (g : gen event A) : list event * result nat :=
  match g with
  | GYield w _ rest =>
      let '(w', r) := count_loop (S num) rest in (w ++ w', r)
  | GStop w => (w, Ok num)
  | GRaise w e => (w, Raised e)
  end.

(** [count_matching_files]: the work done and the value returned. *)
Definition count_matching_files (self : FileSystemBlobLoader)
  : list event * result nat :=
  count_loop 0 (_yield_paths self).

(** [(Blob.from_path(path) for path in paths)], to which [yield from]
    delegates every [next()]. *)
Fixpoint blobs_of (paths : gen event Path) : gen event Blob :=
  match paths with
  | GYield w path rest =>
      GYield (w ++ [FromPath path]) (Blob_from_path path) (blobs_of rest)
  | GStop w => GStop w
  | GRaise w e => GRaise w e
  end.

(** The loop under [with tqdm(...) as progress_bar], where [done] is the
    work done since the last [yield]; leaving the block, normally or by an
    exception, closes the bar.
<<
    for path in self._yield_paths():
        yield Blob.from_path(path)
        progress_bar.update(1)
>> *)
Fixpoint blobs_with_progress (done : list event) (paths : gen event Path)
  : gen event Blob :=
  match paths with
  | GYield w path rest =>
      GYield (done ++ w ++ [FromPath path]) (Blob_from_path path)
             (blobs_with_progress [TqdmUpdate 1] rest)
  | GStop w => GStop (done ++ w ++ [TqdmClose])
  | GRaise w e => GRaise (done ++ w ++ [TqdmClose]) e
  end.

(** [yield_blobs] *)
Definition yield_blobs (self : FileSystemBlobLoader) : gen event Blob :=
  if show_progress self then
    match count_matching_files self with
    | (w, Ok total) =>
        blobs_with_progress (w ++ [TqdmOpen total]) (_yield_paths self)
    | (w, Raised e) => GRaise w e
    end
  else blobs_of (_yield_paths self).

(** The paths the loop of [_yield_paths] gets to look at: those the glob
    generator produces, up to and including the first one on which
    [is_file] raises. *)
Fixpoint examined (paths : gen Path Path) : list Path :=
  match paths with
  | GYield _ p rest =>
      p :: match Path_is_file p with
           | Raised _ => []
           | Ok _ => examined rest
           end
  | GStop _ | GRaise _ _ => []
  end.

(** [path.is_file()] returned [True]. *)
Definition regular (p : Path) : bool :=
  match Path_is_file p with
  | Ok true => true
  | _ => false
  end.

(** The test a path passes to be yielded. *)
Definition kept (self : FileSystemBlobLoader) (p : Path) : bool :=
  match Path_is_file p with
  | Ok true => negb (suffix_rejected self p)
  | _ => false
  end.

(** The work the loader does on a run of glob steps when it turns them into
    blobs: the glob generator's own work, one [is_file] per path, and one
    [Blob.from_path] per kept path. *)
Definition work_for (self : FileSystemBlobLoader)
    (steps : list (list Path * Path)) : list event :=
  flat_map
    (fun '(w, p) =>
       map GlobWork w ++ IsFile p :: (if kept self p then [FromPath p] else []))
    steps.

End Loader.

Arguments _yield_paths Path_glob Path_is_file self : assert.
Arguments count_matching_files Path_glob Path_is_file self : assert.
Arguments yield_blobs {Blob} Blob_from_path Path_glob Path_is_file self : assert.

(** ** The loader on a directory tree *)

(** The collaborators as the [Pathlib] model provides them.  The glob
    generator raises on its first [next()] when the pattern is refused and
    produces the selected paths one by one otherwise; [is_file] does not
    raise in a tree without permissions. *)
Module OnTree.

Definition Path_glob (fs : Pathlib.filesystem) (p : Path) (pattern : string)
  : gen Path Path :=
  match Pathlib.glob fs p pattern with
  | Raised e => GRaise [] e
  | Ok ps => gen_of_list (fun q => [q]) ps
  end.

Definition Path_is_file (fs : Pathlib.filesystem) (p : Path) : result bool :=
  Ok (Pathlib.is_file fs p).

Definition paths (fs : Pathlib.filesystem) (self : FileSystemBlobLoader)
  : gen event Path :=
  _yield_paths (Path_glob fs) (Path_is_file fs) self.

Definition count (fs : Pathlib.filesystem) (self : FileSystemBlobLoader)
  : list event * result nat :=
  count_matching_files (Path_glob fs) (Path_is_file fs) self.

Definition blobs {Blob} (from_path : Path -> Blob) (fs : Pathlib.filesystem)
    (self : FileSystemBlobLoader) : gen event Blob :=
  yield_blobs from_path (Path_glob fs) (Path_is_file fs) self.

End OnTree.

(** ** The words of the specification *)

(** "The path's final extension (the substring from the last dot in the
    final path segment, including the dot)". *)
Definition final_extension (p : Path) : string :=
  let name := Pathlib.name p in
  match Pathlib.rfind_dot name with
  | Some i => String.substring i (String.length name - i) name
  | None => ""
  end.

(** Work that does not involve the progress bar. *)
Definition silent (e : event) : bool :=
  match e with
  | TqdmOpen _ | TqdmUpdate _ | TqdmClose => false
  | GlobWork _ | IsFile _ | FromPath _ => true
  end.

(** The progress sink sees the calls on the bar and the items handed to
    the consumer, nothing else. *)
Definition sink_sees {A} (o : obs event A) : bool :=
  match o with
  | Handed _ => true
  | Did e => negb (silent e)
  end.

(** The path [names] below [root]. *)
Definition descendant (root : Path) (names : list string) : Path :=
  Pathlib.mkPath (Pathlib.anchor root) (Pathlib.segs root ++ names).

(** [below n names target]: starting in the directory [n] and entering, one
    after the other, the entries called [names], all of them directories,
    one arrives at [target]. *)
Fixpoint below (n : Pathlib.node) (names : list string) (target : Pathlib.node)
  : Prop :=
  match names with
  | [] => n = target
  | d :: names' =>
      exists entries child,
        n = Pathlib.Directory entries
        /\ In (d, child) entries
        /\ Pathlib.is_directory child = true
        /\ below child names' target
  end.

(** A name that is not empty and does not start with a dot. *)
Definition not_hidden (name : string) : bool :=
  match name with
  | String c _ => negb (Ascii.eqb c ".")
  | EmptyString => false
  end.

(** "A supported path-like type (string or structured path object)". *)
Definition path_like (v : pyobj) : bool :=
  match v with
  | PyStr _ | PyPath _ => true
  | _ => false
  end.

(** ** Directory trees used in the examples *)

Module Examples.

(** A file system whose only top-level directory is [/d], listed as
    [entries]. *)
Definition d_tree (entries : list (string * Pathlib.node)) : Pathlib.filesystem :=
  Pathlib.mkFs (Pathlib.Directory [("d", Pathlib.Directory entries)]) [].

(** [/d] with [a.txt], [b.md], [.hidden.txt] and [sub/c.txt]. *)
Definition scenario_entries : list (string * Pathlib.node) :=
  [("a.txt", Pathlib.RegularFile);
   ("b.md", Pathlib.RegularFile);
   (".hidden.txt", Pathlib.RegularFile);
   ("sub", Pathlib.Directory [("c.txt", Pathlib.RegularFile)])].

Definition scenario_fs : Pathlib.filesystem := d_tree scenario_entries.

(** [/d] with a regular file inside a hidden directory. *)
Definition hidden_dir_fs : Pathlib.filesystem :=
  Pathlib.mkFs (Pathlib.Directory
          [("d", Pathlib.Directory
                   [(".hiddendir", Pathlib.Directory [("a.txt", Pathlib.RegularFile)])])])
       [].

(** [/home] with a dot file, a file without extension and a text file. *)
Definition home_fs : Pathlib.filesystem :=
  Pathlib.mkFs (Pathlib.Directory
          [("home", Pathlib.Directory
                      [(".profile", Pathlib.RegularFile);
                       ("README", Pathlib.RegularFile);
                       ("notes.txt", Pathlib.RegularFile);
                       ("fifo", Pathlib.SpecialFile);
                       ("src", Pathlib.Directory [])])])
       [].

Definition loader (root pattern : string) (suffixes : list string)
    (show_progress : bool) : FileSystemBlobLoader :=
  {| path := Pathlib.Path_of_str root;
     glob := pattern;
     suffixes := list_to_set suffixes;
     show_progress := show_progress |}.

Definition d_path (names : list string) : Path := Pathlib.mkPath "/" ("d" :: names).

Definition home_path (name : string) : Path := Pathlib.mkPath "/" ["home"; name].

(** Loaders over these trees. *)
Definition extensionless : FileSystemBlobLoader := loader "/home" "*" [""] false.
Definition text_with_progress : FileSystemBlobLoader :=
  loader "/d" default_glob [".txt"] true.
Definition everything : FileSystemBlobLoader := loader "/d" default_glob [] false.
Definition nowhere : FileSystemBlobLoader :=
  loader "/nowhere" default_glob [] false.

(** The glob generator over [scenario_fs] once [a.txt] and [b.md] have been
    produced. *)
Definition after_b_md : gen Path Path :=
  gen_of_list (fun q => [q]) [d_path ["sub"]; d_path ["sub"; "c.txt"]].

End Examples.

(** ** Further notions *)

(** Work on the file system: what the glob generator does, and calls of
    [is_file]. *)
Definition fs_work (e : event) : bool :=
  match e with
  | GlobWork _ | IsFile _ => true
  | FromPath _ | TqdmOpen _ | TqdmUpdate _ | TqdmClose => false
  end.

(** The paths on which [is_file] was called, in order. *)
Definition is_file_calls (w : list event) : list Path :=
  flat_map (fun e => match e with IsFile p => [p] | _ => [] end) w.

(** The same loader with [suffixes=None]. *)
Definition without_suffixes (self : FileSystemBlobLoader) : FileSystemBlobLoader :=
  {| path := path self;
     glob := glob self;
     suffixes := ∅;
     show_progress := show_progress self |}.

(** A tree in which every directory lists each name once. *)
Fixpoint names_unique (n : Pathlib.node) : Prop :=
  match n with
  | Pathlib.Directory entries =>
      List.NoDup (map fst entries)
      /\ (fix each (entries : list (string * Pathlib.node)) : Prop :=
            match entries with
            | [] => True
            | (_, child) :: entries' => names_unique child /\ each entries'
            end) entries
  | _ => True
  end.

(** A traversal that fails half-way: the glob generator produces
    [/d/a.txt] and [/d/locked], and [is_file] raises on the second. *)
Module Faulty.

Definition Path_glob (p : Path) (pattern : string) : gen Path Path :=
  gen_of_list (fun q => [q])
    [Examples.d_path ["a.txt"]; Examples.d_path ["locked"]].

Definition Path_is_file (p : Path) : result bool :=
  if decide (p = Examples.d_path ["locked"])
  then Raised (OSError "Permission denied")
  else Ok true.

End Faulty.

(* ===================================================================== *)
(** * Properties of the loader over any traversal *)
(* ===================================================================== *)

Section LoaderFacts.

Variable Path_glob : Path -> string -> gen Path Path.
Variable Path_is_file : Path -> result bool.

Local Abbreviation yield_paths := (_yield_paths Path_glob Path_is_file).
Local Abbreviation count_files := (count_matching_files Path_glob Path_is_file).
Local Abbreviation loop := (yield_paths_loop Path_is_file).
Local Abbreviation keeps := (kept Path_is_file).
Local Abbreviation seen := (examined Path_is_file).

(** ** The path filter *)

Lemma loop_items self done g :
  items (loop self done g) = List.filter (keeps self) (seen g).
Proof.
  revert done; induction g as [w p rest IH | w | w e]; intros done; simpl;
    try reflexivity.
  unfold kept at 1.
  destruct (Path_is_file p) as [[|]|e]; simpl; auto.
  destruct (suffix_rejected self p); simpl; auto.
  f_equal; apply IH.
Qed.

Lemma loop_outcome self done g :
  outcome (loop self done g) = outcome (loop self [] g).
Proof.
  revert done; induction g as [w p rest IH | w | w e]; intros done; simpl;
    try reflexivity.
  destruct (Path_is_file p) as [[|]|e]; simpl; auto.
  - destruct (suffix_rejected self p); simpl; auto.
    rewrite IH. symmetry. apply IH.
  - rewrite IH. symmetry. apply IH.
Qed.

Lemma yield_paths_items self :
  items (yield_paths self)
  = List.filter (keeps self) (seen (Path_glob (path self) (glob self))).
Proof. apply loop_items. Qed.

Lemma kept_is_file self p : keeps self p = true -> Path_is_file p = Ok true.
Proof.
  unfold kept. destruct (Path_is_file p) as [[|]|e]; easy.
Qed.

Lemma kept_suffix self p :
  keeps self p = true ->
  suffixes self ≠ ∅ -> Pathlib.suffix p ∈ suffixes self.
Proof.
  unfold kept, suffix_rejected.
  destruct (Path_is_file p) as [[|]|e]; try easy.
  intros H Hne. rewrite (bool_decide_eq_true_2 _ Hne) in H. simpl in H.
  apply negb_true_iff, negb_false_iff in H.
  by apply bool_decide_eq_true_1 in H.
Qed.

Lemma kept_no_suffixes self p :
  suffixes self = ∅ -> keeps self p = regular Path_is_file p.
Proof.
  intros Hemp. unfold kept, regular, suffix_rejected.
  destruct (Path_is_file p) as [[|]|e]; try reflexivity.
  rewrite bool_decide_eq_false_2; [reflexivity | intros Hne; by apply Hne].
Qed.

(** ** The suffix filter *)

(** C2, as the code has it.  With a non-empty [suffixes], every yielded
    path has its [pathlib] suffix in the set; with an empty one, the yielded
    paths are all the regular files the traversal hands to the filter. *)
Theorem yielded_suffix_accepted (self : FileSystemBlobLoader) :
  (suffixes self ≠ ∅ ->
   forall p, In p (items (yield_paths self)) ->
             Pathlib.suffix p ∈ suffixes self)
  /\ (suffixes self = ∅ ->
      items (yield_paths self)
      = List.filter (regular Path_is_file)
                    (seen (Path_glob (path self) (glob self)))).
Proof.
  split.
  - intros Hne p. rewrite yield_paths_items, filter_In.
    intros [_ Hk]. eauto using kept_suffix.
  - intros Hemp. rewrite yield_paths_items.
    apply List.filter_ext. intros p. by apply kept_no_suffixes.
Qed.

(** C10.  Under a non-empty [suffixes], a regular file that the traversal
    reaches and whose suffix is the empty string is yielded exactly when
    the empty string is one of the accepted suffixes. *)
Theorem extensionless_file_yielded (self : FileSystemBlobLoader) (p : Path) :
  suffixes self ≠ ∅ ->
  In p (seen (Path_glob (path self) (glob self))) ->
  Path_is_file p = Ok true ->
  Pathlib.suffix p = "" ->
  (In p (items (yield_paths self)) <-> "" ∈ suffixes self).
Proof.
  intros Hne Hseen Hfile Hsuf. rewrite yield_paths_items, filter_In.
  unfold kept, suffix_rejected. rewrite Hfile, Hsuf.
  rewrite (bool_decide_eq_true_2 _ Hne). simpl.
  rewrite negb_involutive, bool_decide_eq_true. tauto.
Qed.

(** ** Counting and producing *)

Lemma count_loop_spec {A} (g : gen event A) num :
  snd (count_loop num g)
  = match outcome g with
    | None => Ok (num + length (items g))
    | Some e => Raised e
    end.
Proof.
  revert num; induction g as [w a rest IH | w | w e]; intros num; simpl.
  - specialize (IH (S num)). destruct (count_loop (S num) rest) as [w' r].
    simpl in *. rewrite IH. destruct (outcome rest); [reflexivity|].
    f_equal. lia.
  - f_equal. lia.
  - reflexivity.
Qed.

Lemma count_loop_work {A} (g : gen event A) num :
  fst (count_loop num g) = trace g.
Proof.
  revert num; induction g as [w a rest IH | w | w e]; intros num; simpl;
    try reflexivity.
  specialize (IH (S num)). destruct (count_loop (S num) rest) as [w' r].
  simpl in *. by rewrite IH.
Qed.

Context {Blob : Type}.
Variable Blob_from_path : Path -> Blob.

Local Abbreviation blobs := (yield_blobs Blob_from_path Path_glob Path_is_file).

Lemma blobs_of_items g :
  items (blobs_of Blob_from_path g) = map Blob_from_path (items g).
Proof. induction g; simpl; congruence. Qed.

Lemma blobs_of_outcome g : outcome (blobs_of Blob_from_path g) = outcome g.
Proof. induction g; simpl; congruence. Qed.

Lemma blobs_with_progress_items done g :
  items (blobs_with_progress Blob_from_path done g)
  = map Blob_from_path (items g).
Proof. revert done; induction g; intros; simpl; congruence. Qed.

Lemma blobs_with_progress_outcome done g :
  outcome (blobs_with_progress Blob_from_path done g) = outcome g.
Proof. revert done; induction g; intros; simpl; congruence. Qed.

Lemma count_files_result self :
  snd (count_files self)
  = match outcome (yield_paths self) with
    | None => Ok (length (items (yield_paths self)))
    | Some e => Raised e
    end.
Proof. unfold count_matching_files. by rewrite count_loop_spec. Qed.

Lemma yield_blobs_outcome self :
  outcome (blobs self) = outcome (yield_paths self).
Proof.
  unfold yield_blobs. destruct (show_progress self).
  - pose proof (count_files_result self) as Hc.
    destruct (count_files self) as [w [total|e]]; simpl in Hc.
    + apply blobs_with_progress_outcome.
    + destruct (outcome (yield_paths self)); simpl; congruence.
  - apply blobs_of_outcome.
Qed.

Lemma yield_blobs_items self :
  outcome (yield_paths self) = None ->
  items (blobs self) = map Blob_from_path (items (yield_paths self)).
Proof.
  intros Hout. unfold yield_blobs. destruct (show_progress self).
  - pose proof (count_files_result self) as Hc. rewrite Hout in Hc.
    destruct (count_files self) as [w [total|e]]; simpl in Hc; [|discriminate].
    apply blobs_with_progress_items.
  - apply blobs_of_items.
Qed.

(** Every blob comes from a yielded path, also when the traversal ends in
    an exception. *)
Lemma yield_blobs_from_paths self b :
  In b (items (blobs self)) ->
  exists p, In p (items (yield_paths self)) /\ b = Blob_from_path p.
Proof.
  unfold yield_blobs. destruct (show_progress self).
  - destruct (count_files self) as [w [total|e]]; simpl; [|tauto].
    rewrite blobs_with_progress_items, in_map_iff. intros (p & <- & Hp); eauto.
  - rewrite blobs_of_items, in_map_iff. intros (p & <- & Hp); eauto.
Qed.

(** C1.  On an unchanging tree, [count_matching_files] returns the number
    of blobs that a full consumption of [yield_blobs] hands over, for either
    value of [show_progress]; and it raises exactly when that consumption
    is cut short by an exception, with the same exception. *)
Theorem count_matches_enumeration (self : FileSystemBlobLoader) :
  snd (count_files self) = result_map length (py_list (blobs self)).
Proof.
  rewrite count_files_result. unfold py_list.
  rewrite yield_blobs_outcome.
  destruct (outcome (yield_paths self)) eqn:Hout; simpl; [reflexivity|].
  by rewrite yield_blobs_items, length_map.
Qed.

(** ** Progress reporting *)

Lemma filter_sink_silent (w : list event) :
  forallb silent w = true ->
  List.filter sink_sees (map (Did (A:=Blob)) w) = [].
Proof.
  induction w as [|e w IH]; cbn [forallb map List.filter sink_sees];
    [reflexivity|].
  intros [He Hw]%andb_true_iff. rewrite He. auto.
Qed.

Lemma glob_work_silent (w : list Path) : forallb silent (map GlobWork w) = true.
Proof. by induction w. Qed.

Lemma loop_silent self done g :
  forallb silent done = true ->
  forallb silent (trace (loop self done g)) = true.
Proof.
  revert done; induction g as [w p rest IH | w | w e]; intros done Hd; simpl.
  - assert (Hd' : forallb silent (done ++ map GlobWork w ++ [IsFile p]) = true).
    { rewrite !forallb_app, Hd, glob_work_silent. reflexivity. }
    destruct (Path_is_file p) as [[|]|e]; simpl; auto.
    destruct (suffix_rejected self p); simpl; auto.
    rewrite forallb_app, Hd'. simpl. by apply IH.
  - by rewrite forallb_app, Hd, glob_work_silent.
  - by rewrite forallb_app, Hd, glob_work_silent.
Qed.

Lemma progress_loop_seen done (g : gen event Path) :
  forallb silent (trace g) = true ->
  List.filter sink_sees (observe (blobs_with_progress Blob_from_path done g))
  = List.filter sink_sees (map Did done)
    ++ flat_map (fun p => [Handed (Blob_from_path p); Did (TqdmUpdate 1)])
                (items g)
    ++ [Did TqdmClose].
Proof.
  revert done; induction g as [w p rest IH | w | w e]; intros done; simpl.
  - rewrite forallb_app. intros [Hw Hrest]%andb_true_iff.
    rewrite !map_app, !List.filter_app, (filter_sink_silent w Hw). simpl.
    rewrite (IH _ Hrest). simpl. by rewrite <- !app_assoc.
  - intros Hw. rewrite !map_app, !List.filter_app, (filter_sink_silent w Hw).
    reflexivity.
  - intros Hw. rewrite !map_app, !List.filter_app, (filter_sink_silent w Hw).
    reflexivity.
Qed.

(** C4.  With [show_progress] set and a traversal that yields the [N]
    paths [ps], what the progress sink and the consumer see of a full
    consumption is: the bar created with total [N]; then, for each path in
    turn, its blob handed to the consumer followed by one [update(1)]; then
    the bar closed. *)
Theorem progress_protocol (self : FileSystemBlobLoader) (ps : list Path) :
  show_progress self = true ->
  py_list (yield_paths self) = Ok ps ->
  List.filter sink_sees (observe (blobs self))
  = Did (TqdmOpen (length ps))
    :: flat_map (fun p => [Handed (Blob_from_path p); Did (TqdmUpdate 1)]) ps
    ++ [Did TqdmClose].
Proof.
  intros Hshow Hps. unfold py_list in Hps.
  destruct (outcome (yield_paths self)) eqn:Hout; [discriminate|].
  injection Hps as Hps.
  unfold yield_blobs. rewrite Hshow.
  pose proof (count_files_result self) as Hres. rewrite Hout, Hps in Hres.
  pose proof (count_loop_work (yield_paths self) 0) as Hwork.
  fold (count_files self) in Hwork.
  destruct (count_files self) as [w r]. simpl in Hres, Hwork. subst w r.
  assert (Hsilent : forallb silent (trace (yield_paths self)) = true)
    by by apply loop_silent.
  rewrite (progress_loop_seen _ _ Hsilent), Hps.
  rewrite map_app, List.filter_app, (filter_sink_silent _ Hsilent).
  reflexivity.
Qed.

(** ** Laziness *)

Lemma loop_step self done w q rest b :
  Path_is_file q = Ok b ->
  loop self done (GYield w q rest)
  = if keeps self q
    then GYield (done ++ map GlobWork w ++ [IsFile q]) q (loop self [] rest)
    else loop self (done ++ map GlobWork w ++ [IsFile q]) rest.
Proof.
  intros Hq. simpl. unfold kept. rewrite Hq.
  destruct b; [|reflexivity]. by destruct (suffix_rejected self q).
Qed.

Lemma advance_blobs_of_loop self steps done w p upcoming :
  (forall q, In q (map snd steps) -> exists b, Path_is_file q = Ok b) ->
  keeps self p = true ->
  advance (length (List.filter (keeps self) (map snd (steps ++ [(w, p)]))))
          (blobs_of Blob_from_path
             (loop self done (prepend (steps ++ [(w, p)]) upcoming)))
  = (done ++ work_for Path_is_file self (steps ++ [(w, p)]),
     map Blob_from_path (List.filter (keeps self) (map snd (steps ++ [(w, p)]))),
     blobs_of Blob_from_path (loop self [] upcoming)).
Proof.
  intros Hok Hp. revert done.
  induction steps as [|[w0 q] steps IH]; intros done.
  - cbn [app prepend map snd List.filter work_for flat_map].
    rewrite (loop_step _ _ _ _ _ true) by (by apply kept_is_file in Hp).
    rewrite Hp. cbn. by rewrite !app_nil_r, <- !app_assoc.
  - destruct (Hok q) as [b Hb]; [by left|].
    assert (Hok' : forall q', In q' (map snd steps) ->
                              exists b', Path_is_file q' = Ok b')
      by (intros q' Hq'; apply Hok; by right).
    specialize (IH Hok').
    cbn [app prepend map snd List.filter work_for flat_map].
    rewrite (loop_step _ _ _ _ _ b Hb).
    destruct (keeps self q) eqn:Hq.
    + cbn [length blobs_of advance map].
      rewrite (IH []). cbn [app]. unfold work_for.
      by rewrite <- !app_assoc.
    + rewrite IH. unfold work_for. by rewrite <- !app_assoc.
Qed.

(** C8.  Without progress reporting, nothing has been done when the
    consumer holds the generator and has not advanced it.  And when the
    glob generator would run through [steps], then produce a kept path [p],
    then go on as [upcoming], a consumer that takes the blobs up to that of
    [p] and abandons the generator has caused the work for these steps and
    no other, and leaves behind the loader's pipeline suspended on an
    [upcoming] that was never advanced. *)
Theorem enumeration_is_lazy (self : FileSystemBlobLoader)
    (steps : list (list Path * Path)) (w : list Path) (p : Path)
    (upcoming : gen Path Path) :
  show_progress self = false ->
  Path_glob (path self) (glob self) = prepend (steps ++ [(w, p)]) upcoming ->
  (forall q, In q (map snd steps) -> exists b, Path_is_file q = Ok b) ->
  keeps self p = true ->
  let taken := List.filter (keeps self) (map snd (steps ++ [(w, p)])) in
  advance 0 (blobs self) = ([], [], blobs self)
  /\ advance (length taken) (blobs self)
     = (work_for Path_is_file self (steps ++ [(w, p)]),
        map Blob_from_path taken,
        blobs_of Blob_from_path (loop self [] upcoming)).
Proof.
  intros Hshow Hglob Hok Hp taken. split; [reflexivity|].
  unfold yield_blobs, _yield_paths. rewrite Hshow, Hglob.
  subst taken. by rewrite advance_blobs_of_loop.
Qed.

End LoaderFacts.

(* ===================================================================== *)
(** * Properties of the loader on a directory tree *)
(* ===================================================================== *)

Section OnTreeFacts.

Context {Blob : Type}.
Variable Blob_from_path : Path -> Blob.
Variable fs : Pathlib.filesystem.

Lemma is_file_regular p :
  Pathlib.is_file fs p = true <-> Pathlib.stat fs p = Some Pathlib.RegularFile.
Proof.
  unfold Pathlib.is_file.
  destruct (Pathlib.stat fs p) as [[| |entries]|]; split; congruence.
Qed.

Lemma examined_gen_of_list (cost : Path -> list Path) (l : list Path) :
  examined (OnTree.Path_is_file fs) (gen_of_list cost l) = l.
Proof.
  unfold gen_of_list. induction l as [|p l IH]; simpl; congruence.
Qed.

Lemma outcome_gen_of_list {Ev A} (cost : A -> list Ev) (l : list A) :
  outcome (gen_of_list cost l) = None.
Proof. unfold gen_of_list. induction l as [|a l IH]; simpl; congruence. Qed.

Lemma tree_paths_regular self p :
  In p (items (OnTree.paths fs self)) ->
  Pathlib.stat fs p = Some Pathlib.RegularFile.
Proof.
  unfold OnTree.paths. rewrite yield_paths_items, filter_In.
  intros [_ Hk%kept_is_file]. unfold OnTree.Path_is_file in Hk.
  apply is_file_regular. congruence.
Qed.

(** C3.  On every tree and for every configuration: each yielded path is a
    regular file, each blob handed over was made from a regular file, the
    count is the number of yielded paths, and a path that is a directory, a
    special file or absent is not among the yielded ones. *)
Theorem only_regular_files (self : FileSystemBlobLoader) :
  (forall p, In p (items (OnTree.paths fs self)) ->
             Pathlib.stat fs p = Some Pathlib.RegularFile)
  /\ (forall b, In b (items (OnTree.blobs Blob_from_path fs self)) ->
                exists p, b = Blob_from_path p
                          /\ Pathlib.stat fs p = Some Pathlib.RegularFile)
  /\ (forall n, snd (OnTree.count fs self) = Ok n ->
                n = length (items (OnTree.paths fs self)))
  /\ (forall p, Pathlib.stat fs p <> Some Pathlib.RegularFile ->
                ~ In p (items (OnTree.paths fs self))).
Proof.
  repeat split.
  - apply tree_paths_regular.
  - intros b Hb. apply yield_blobs_from_paths in Hb as (p & Hp & ->).
    exists p. split; [reflexivity|]. by apply (tree_paths_regular self).
  - intros n. unfold OnTree.count, OnTree.paths.
    rewrite count_files_result.
    destruct (outcome _); congruence.
  - intros p Hp Hin. exact (Hp (tree_paths_regular _ _ Hin)).
Qed.

(** ** A root that is not a directory *)

Lemma glob_not_a_directory (root : Path) (pattern : string) :
  Pathlib.is_dir fs root = false ->
  OnTree.Path_glob fs root pattern = GStop []
  \/ exists e, OnTree.Path_glob fs root pattern = GRaise [] e.
Proof.
  intros Hdir. unfold OnTree.Path_glob, Pathlib.glob. rewrite Hdir.
  destruct (decide (pattern = "")); [right; eauto|].
  destruct (Pathlib.parse_parts pattern) as [root' parts].
  destruct (negb (String.eqb root' "")); [right; eauto|].
  destruct parts as [|pat child_parts]; [right; eauto|].
  destruct (Pathlib.make_selector pat child_parts); [left|right]; eauto.
Qed.

(** C7.  When the root is missing or is not a directory, counting and
    enumerating agree: both give an empty result (count [0], no blob), or
    both raise the same exception before any blob is produced. *)
Theorem missing_root_uniform (self : FileSystemBlobLoader) :
  Pathlib.is_dir fs (path self) = false ->
  (snd (OnTree.count fs self) = Ok 0
   /\ py_list (OnTree.blobs Blob_from_path fs self) = Ok [])
  \/ (exists e, snd (OnTree.count fs self) = Raised e
                /\ py_list (OnTree.blobs Blob_from_path fs self) = Raised e
                /\ items (OnTree.blobs Blob_from_path fs self) = []).
Proof.
  intros Hdir. unfold OnTree.count, OnTree.blobs.
  destruct (glob_not_a_directory (path self) (glob self) Hdir) as [Hg|[e Hg]].
  - left. unfold yield_blobs, count_matching_files, _yield_paths.
    rewrite Hg. simpl. by destruct (show_progress self).
  - right. exists e.
    unfold yield_blobs, count_matching_files, _yield_paths.
    rewrite Hg. simpl. by destruct (show_progress self).
Qed.

End OnTreeFacts.

(* ===================================================================== *)
(** * The default pattern *)
(* ===================================================================== *)

Section DefaultPattern.

Local Abbreviation pattern_of := (glob : FileSystemBlobLoader -> string).
Import Pathlib.
Context {Blob : Type}.
Variable Blob_from_path : Path -> Blob.
Variable fs : filesystem.

Lemma iterate_directories_unfold parent entries :
  iterate_directories parent (Directory entries)
  = parent ::
    flat_map (fun '(name, child) =>
                if is_directory child
                then iterate_directories (make_child_relpath parent name) child
                else [])
             entries.
Proof.
  simpl. f_equal. induction entries as [|[name child] entries IH]; simpl;
    [reflexivity|]. by rewrite IH.
Qed.

Lemma descendant_nil root : descendant root [] = root.
Proof. destruct root. unfold descendant. simpl. by rewrite app_nil_r. Qed.

Lemma descendant_child root d names :
  descendant (make_child_relpath root d) names = descendant root (d :: names).
Proof. unfold descendant, make_child_relpath. simpl. by rewrite <- app_assoc. Qed.

Lemma descendant_last root names name :
  make_child_relpath (descendant root names) name
  = descendant root (names ++ [name]).
Proof. unfold descendant, make_child_relpath. simpl. by rewrite <- app_assoc. Qed.

(** The recursive selector visits every directory that can be reached
    through directories, whatever their names. *)
Lemma iterate_directories_reaches names : forall n parent target,
  below n names target ->
  In (descendant parent names) (iterate_directories parent n).
Proof.
  induction names as [|d names IH]; intros n parent target Hb.
  - rewrite descendant_nil. destruct n; simpl; auto.
  - destruct Hb as (entries & child & -> & Hin & Hdir & Hb).
    rewrite iterate_directories_unfold. right.
    apply in_flat_map. exists (d, child). split; [assumption|].
    rewrite Hdir, <- descendant_child. by apply (IH _ _ target).
Qed.

Lemma yield_unseen_In p ps : forall yielded,
  In p (yield_unseen yielded ps) <-> In p ps /\ p ∉ yielded.
Proof.
  induction ps as [|q ps IH]; intros yielded; simpl; [tauto|].
  destruct (decide (q ∈ yielded)) as [Hq|Hq]; simpl; rewrite IH.
  - split; [tauto|]. intros [[->|Hin] Hp]; tauto.
  - rewrite not_elem_of_cons.
    destruct (decide (q = p)) as [->|Hne]; [tauto|].
    split; [intros [?|[? [? ?]]]; tauto|]. intros [[?|?] ?]; [tauto|].
    right. repeat split; auto.
Qed.

Lemma matches_star s : matches [TStar] s = true.
Proof. induction s as [|c s IH]; [reflexivity | exact IH]. Qed.

(** The last segment of the default pattern accepts exactly the names that
    are not empty and do not start with a dot. *)
Lemma fnmatch_not_hidden name :
  fnmatch (translate "[!.]*") name = not_hidden name.
Proof.
  destruct name as [|c name]; [reflexivity|].
  change (translate "[!.]*") with [TClass true [CChar "."%char]; TStar].
  unfold fnmatch.
  change (list_ascii_of_string (String c name))
    with (c :: list_ascii_of_string name).
  cbn [matches]. rewrite matches_star, andb_true_r. simpl.
  by rewrite orb_false_r.
Qed.

Lemma default_glob_paths root :
  glob fs root default_glob
  = Ok (if is_dir fs root
        then yield_unseen []
               (flat_map
                  (_select_from fs (Wildcard (translate "[!.]*") Terminating))
                  (match stat fs root with
                   | Some n => iterate_directories root n
                   | None => []
                   end))
        else []).
Proof. reflexivity. Qed.

Lemma default_glob_finds root n0 names entries name :
  stat fs root = Some n0 ->
  below n0 names (Directory entries) ->
  scandir fs (descendant root names) = Some entries ->
  In name (map fst entries) ->
  not_hidden name = true ->
  exists ps, glob fs root default_glob = Ok ps
             /\ In (descendant root (names ++ [name])) ps.
Proof.
  intros Hroot Hbelow Hscan Hname Hvisible.
  rewrite default_glob_paths. eexists; split; [reflexivity|].
  assert (Hdir : is_dir fs root = true).
  { unfold is_dir. rewrite Hroot.
    destruct names; simpl in Hbelow.
    - by subst n0.
    - by destruct Hbelow as (? & ? & -> & _). }
  rewrite Hdir, Hroot. apply yield_unseen_In. split; [|apply not_elem_of_nil].
  apply in_flat_map. exists (descendant root names). split.
  - by apply (iterate_directories_reaches _ _ _ (Directory entries)).
  - cbn [_select_from]. rewrite Hscan.
    apply in_map_iff in Hname as ([name' child] & Hfst & Hin).
    simpl in Hfst. subst name'.
    apply in_flat_map. exists (name, child). split; [assumption|].
    cbn [dironly andb]. rewrite fnmatch_not_hidden, Hvisible.
    cbn [_select_from]. rewrite descendant_last. by left.
Qed.

Lemma tree_glob_items root pattern ps :
  glob fs root pattern = Ok ps ->
  examined (OnTree.Path_is_file fs) (OnTree.Path_glob fs root pattern) = ps
  /\ outcome (OnTree.Path_glob fs root pattern) = None.
Proof.
  intros Hg. unfold OnTree.Path_glob. rewrite Hg.
  split; [apply examined_gen_of_list | apply outcome_gen_of_list].
Qed.

Lemma tree_paths_outcome self ps :
  glob fs (path self) (pattern_of self) = Ok ps ->
  outcome (OnTree.paths fs self) = None.
Proof.
  intros Hg. unfold OnTree.paths, _yield_paths, OnTree.Path_glob.
  rewrite Hg. clear Hg. unfold gen_of_list.
  generalize (@nil event).
  induction ps as [|p ps IH]; intros done; [reflexivity|].
  cbn [map prepend yield_paths_loop]. unfold OnTree.Path_is_file at 1.
  destruct (is_file fs p); [destruct (suffix_rejected self p)|];
    cbn [outcome]; apply IH.
Qed.

(** C9.  Under the default pattern, a regular file whose own name does not
    start with a dot is matched, yielded, counted and turned into a blob
    wherever it lies below the root: the directories on the way to it may
    have any names, hidden ones included, since only the last segment is
    matched against [[!.]*]. *)
Theorem hidden_directories_are_searched (self : FileSystemBlobLoader)
    (n0 : node) (names : list string) (entries : list (string * node))
    (name : string) :
  pattern_of self = default_glob ->
  stat fs (path self) = Some n0 ->
  below n0 names (Directory entries) ->
  scandir fs (descendant (path self) names) = Some entries ->
  In name (map fst entries) ->
  not_hidden name = true ->
  is_file fs (descendant (path self) (names ++ [name])) = true ->
  suffix_rejected self (descendant (path self) (names ++ [name])) = false ->
  (exists ps, glob fs (path self) (pattern_of self) = Ok ps
              /\ In (descendant (path self) (names ++ [name])) ps)
  /\ In (descendant (path self) (names ++ [name]))
        (items (OnTree.paths fs self))
  /\ snd (OnTree.count fs self) = Ok (length (items (OnTree.paths fs self)))
  /\ In (Blob_from_path (descendant (path self) (names ++ [name])))
        (items (OnTree.blobs Blob_from_path fs self)).
Proof.
  intros Hpat Hroot Hbelow Hscan Hname Hvisible Hfile Hsuffix.
  destruct (default_glob_finds _ _ _ _ _ Hroot Hbelow Hscan Hname Hvisible)
    as (ps & Hg & Hin).
  rewrite <- Hpat in Hg.
  pose proof (tree_paths_outcome self ps Hg) as Hout.
  destruct (tree_glob_items _ _ _ Hg) as [Hseen _].
  assert (Hyield : In (descendant (path self) (names ++ [name]))
                      (items (OnTree.paths fs self))).
  { unfold OnTree.paths. rewrite yield_paths_items, Hseen, filter_In.
    split; [assumption|].
    unfold kept, OnTree.Path_is_file. by rewrite Hfile, Hsuffix. }
  repeat split.
  - eauto.
  - assumption.
  - unfold OnTree.count, OnTree.paths in *.
    by rewrite count_files_result, Hout.
  - unfold OnTree.blobs, OnTree.paths in *.
    rewrite yield_blobs_items by assumption. by apply in_map.
Qed.

End DefaultPattern.

(* ===================================================================== *)
(** * Construction *)
(* ===================================================================== *)

(** C6.  [__init__] touches nothing; it raises, and then always a
    [TypeError], exactly when [path] is neither a [str] nor a [Path]; and it
    produces a loader exactly when [path] is one of the two. *)
Theorem init_accepts_path_likes (v : pyobj) (pattern : string)
    (sfx : option (list string)) (progress : bool) :
  fst (__init__ v pattern sfx progress) = []
  /\ ((exists e, snd (__init__ v pattern sfx progress) = Raised e)
      <-> path_like v = false)
  /\ (forall e, snd (__init__ v pattern sfx progress) = Raised e ->
                exists msg, e = TypeError msg)
  /\ ((exists self, snd (__init__ v pattern sfx progress) = Ok self)
      <-> path_like v = true).
Proof.
  destruct v; simpl; repeat split;
    try congruence; try (intros [? ?]; congruence);
    try (intros; eexists; reflexivity);
    try (intros ? [= <-]; eexists; reflexivity).
Qed.

(* ===================================================================== *)
(** * The pattern ["*"] *)
(* ===================================================================== *)

Section OneLevel.

Import Examples.
Context {Blob : Type}.
Variable Blob_from_path : Path -> Blob.

Lemma scandir_is_dir fs root entries :
  Pathlib.scandir fs root = Some entries -> Pathlib.is_dir fs root = true.
Proof.
  unfold Pathlib.scandir, Pathlib.is_dir.
  by destruct (Pathlib.stat fs root) as [[| |?]|].
Qed.

(** ["*"] selects every entry of the root, whatever its name and kind. *)
Lemma star_selects_children fs root entries :
  Pathlib.scandir fs root = Some entries ->
  Pathlib.glob fs root "*"
  = Ok (map (fun e => Pathlib.make_child_relpath root (fst e)) entries).
Proof.
  intros Hscan.
  change (Pathlib.glob fs root "*")
    with (Ok (if Pathlib.is_dir fs root
              then Pathlib._select_from fs
                     (Pathlib.Wildcard [Pathlib.TStar] Pathlib.Terminating) root
              else [])).
  rewrite (scandir_is_dir _ _ _ Hscan). cbn [Pathlib._select_from].
  rewrite Hscan. f_equal. clear Hscan.
  induction entries as [|[name child] entries IH]; [reflexivity|].
  cbn [flat_map map fst Pathlib.dironly andb].
  unfold Pathlib.fnmatch at 1. rewrite matches_star.
  cbn [Pathlib._select_from app]. f_equal. exact IH.
Qed.

(** Without a suffix filter the loader keeps the regular files among
    them. *)
Lemma star_yields_regular_children fs self entries :
  glob self = "*" ->
  suffixes self = ∅ ->
  Pathlib.scandir fs (path self) = Some entries ->
  items (OnTree.paths fs self)
  = List.filter (Pathlib.is_file fs)
      (map (fun e => Pathlib.make_child_relpath (path self) (fst e)) entries).
Proof.
  intros Hpat Hemp Hscan. unfold OnTree.paths.
  rewrite yield_paths_items, Hpat.
  destruct (tree_glob_items fs _ _ _ (star_selects_children _ _ _ Hscan))
    as [-> _].
  apply List.filter_ext. intros p. rewrite kept_no_suffixes by assumption.
  unfold regular, OnTree.Path_is_file. by destruct (Pathlib.is_file fs p).
Qed.

Lemma entry_In name child entries :
  List.NoDup (map fst entries) ->
  In (name, child) entries ->
  Pathlib.entry name entries = Some child.
Proof.
  induction entries as [|[n c] entries IH]; simpl; [tauto|].
  intros Hnd [Heq|Hin].
  - injection Heq as -> ->. by rewrite String.eqb_refl.
  - inversion Hnd as [|? ? Hnotin Hnd']; subst.
    destruct (String.eqb_spec n name) as [->|Hne]; [|by apply IH].
    exfalso. apply Hnotin. apply in_map_iff. by exists (name, child).
Qed.

Lemma d_tree_scandir entries :
  Pathlib.scandir (d_tree entries) (Pathlib.Path_of_str "/d") = Some entries.
Proof. reflexivity. Qed.

Lemma d_tree_is_file entries name child :
  String.eqb name ".." = false ->
  List.NoDup (map fst entries) ->
  In (name, child) entries ->
  Pathlib.is_file (d_tree entries) (d_path [name])
  = match child with Pathlib.RegularFile => true | _ => false end.
Proof.
  intros Hname Hnd Hin. unfold Pathlib.is_file, Pathlib.stat, d_tree, d_path.
  cbn. destruct (decide _); cbn; by rewrite Hname, (entry_In _ _ _ Hnd Hin).
Qed.

Lemma scenario_entries_NoDup entries :
  Permutation entries scenario_entries -> List.NoDup (map fst entries).
Proof.
  intros Hperm.
  apply (Permutation_NoDup (l:=map fst scenario_entries)).
  - apply Permutation_map. by symmetry.
  - repeat constructor; simpl; intuition discriminate.
Qed.

Lemma scenario_star_paths entries :
  Permutation entries scenario_entries ->
  forall p,
    In p (List.filter (Pathlib.is_file (d_tree entries))
            (map (fun e => Pathlib.make_child_relpath (Pathlib.Path_of_str "/d")
                             (fst e)) entries))
    <-> In p [d_path ["a.txt"]; d_path ["b.md"]; d_path [".hidden.txt"]].
Proof.
  intros Hperm p.
  pose proof (scenario_entries_NoDup _ Hperm) as Hnd.
  assert (Hfile : forall name child,
             In (name, child) scenario_entries ->
             Pathlib.is_file (d_tree entries) (d_path [name])
             = match child with Pathlib.RegularFile => true | _ => false end).
  { intros name child Hin.
    apply d_tree_is_file; [|assumption|].
    - simpl in Hin.
      destruct Hin as [[= <- <-]|[[= <- <-]|[[= <- <-]|[[= <- <-]|[]]]]];
        reflexivity.
    - apply (Permutation_in _ (Permutation_sym Hperm) Hin). }
  rewrite filter_In, in_map_iff. split.
  - intros [([name child] & <- & Hin) Hf].
    apply (Permutation_in _ Hperm) in Hin.
    change (Pathlib.make_child_relpath (Pathlib.Path_of_str "/d")
              (fst (name, child))) with (d_path [name]) in *.
    rewrite (Hfile _ _ Hin) in Hf. simpl in Hin.
    destruct Hin as [[= <- <-]|[[= <- <-]|[[= <- <-]|[[= <- <-]|[]]]]];
      simpl; auto; discriminate.
  - simpl. intros [<-|[<-|[<-|[]]]].
    + split; [|apply (Hfile "a.txt" Pathlib.RegularFile); simpl; auto].
      exists ("a.txt", Pathlib.RegularFile). split; [reflexivity|].
      apply (Permutation_in _ (Permutation_sym Hperm)). simpl; auto.
    + split; [|apply (Hfile "b.md" Pathlib.RegularFile); simpl; auto].
      exists ("b.md", Pathlib.RegularFile). split; [reflexivity|].
      apply (Permutation_in _ (Permutation_sym Hperm)). simpl; auto.
    + split; [|apply (Hfile ".hidden.txt" Pathlib.RegularFile); simpl; auto].
      exists (".hidden.txt", Pathlib.RegularFile). split; [reflexivity|].
      apply (Permutation_in _ (Permutation_sym Hperm)). simpl; auto.
Qed.

Lemma child_paths_NoDup root (entries : list (string * Pathlib.node)) :
  List.NoDup (map fst entries) ->
  List.NoDup (map (fun e => Pathlib.make_child_relpath root (fst e)) entries).
Proof.
  induction entries as [|[name child] entries IH]; simpl; intros Hnd;
    inversion Hnd as [|? ? Hnotin Hnd']; subst; constructor; auto.
  rewrite in_map_iff. intros ([name' child'] & [= Heq] & Hin).
  apply app_inj_tail in Heq as [_ ->].
  apply Hnotin, in_map_iff. by exists (name, child').
Qed.

(** C5, as the code has it.  On the tree of scenario A, in whatever order
    the directory is listed, the pattern ["*"] without a suffix filter
    yields exactly [a.txt], [b.md] and [.hidden.txt], each once: [sub] is
    matched but is a directory, [sub/c.txt] is not matched, and the dot of
    [.hidden.txt] does not keep [*] from matching it.  Three files are
    counted and the three blobs are handed over, with or without progress
    reporting. *)
Theorem star_yields_every_file_of_root
    (entries : list (string * Pathlib.node)) (progress : bool) :
  Permutation entries scenario_entries ->
  Permutation (items (OnTree.paths (d_tree entries) (loader "/d" "*" [] progress)))
              [d_path ["a.txt"]; d_path ["b.md"]; d_path [".hidden.txt"]]
  /\ snd (OnTree.count (d_tree entries) (loader "/d" "*" [] progress)) = Ok 3
  /\ exists ps,
       py_list (OnTree.blobs Blob_from_path (d_tree entries)
                  (loader "/d" "*" [] progress))
       = Ok (map Blob_from_path ps)
       /\ Permutation ps [d_path ["a.txt"]; d_path ["b.md"]; d_path [".hidden.txt"]].
Proof.
  intros Hperm.
  set (self := loader "/d" "*" [] progress).
  assert (Hitems : items (OnTree.paths (d_tree entries) self)
                   = List.filter (Pathlib.is_file (d_tree entries))
                       (map (fun e => Pathlib.make_child_relpath
                                        (Pathlib.Path_of_str "/d") (fst e))
                            entries)).
  { apply (star_yields_regular_children (d_tree entries) self entries);
      reflexivity. }
  assert (Hset : Permutation (items (OnTree.paths (d_tree entries) self))
                   [d_path ["a.txt"]; d_path ["b.md"]; d_path [".hidden.txt"]]).
  { apply Permutation.NoDup_Permutation.
    - rewrite Hitems. apply List.NoDup_filter, child_paths_NoDup.
      by apply scenario_entries_NoDup.
    - repeat constructor; simpl; intuition discriminate.
    - intros p. rewrite Hitems. by apply scenario_star_paths. }
  assert (Hout : outcome (OnTree.paths (d_tree entries) self) = None).
  { apply (tree_paths_outcome (d_tree entries) self
             (map (fun e => Pathlib.make_child_relpath
                              (Pathlib.Path_of_str "/d") (fst e)) entries)).
    apply (star_selects_children (d_tree entries)). reflexivity. }
  split; [assumption|]. split.
  - unfold OnTree.count, OnTree.paths in *.
    rewrite count_files_result, Hout.
    by rewrite (Permutation_length Hset).
  - exists (items (OnTree.paths (d_tree entries) self)).
    split; [|assumption].
    unfold py_list, OnTree.blobs, OnTree.paths in *.
    by rewrite yield_blobs_outcome, Hout, yield_blobs_items.
Qed.

End OneLevel.

(** C5 as stated fails: the yielded paths are not just [a.txt] and
    [b.md]. *)
Lemma star_yields_hidden_file :
  ~ (forall p,
       In p (items (OnTree.paths Examples.scenario_fs
                      (Examples.loader "/d" "*" [] false)))
       <-> In p [Examples.d_path ["a.txt"]; Examples.d_path ["b.md"]]).
Proof.
  intros H.
  destruct (proj1 (H (Examples.d_path [".hidden.txt"]))) as [Heq|[Heq|[]]];
    [vm_compute; tauto | discriminate Heq | discriminate Heq].
Qed.

(** C2 as stated fails: with [suffixes = [""]] the dot file [.profile] is
    yielded, and the substring from its last dot is the whole name. *)
Lemma dot_file_extension_not_accepted :
  ~ (suffixes (Examples.loader "/home" "*" [""] false) ≠ ∅ ->
     forall p,
       In p (items (OnTree.paths Examples.home_fs
                      (Examples.loader "/home" "*" [""] false))) ->
       final_extension p ∈ suffixes (Examples.loader "/home" "*" [""] false)).
Proof.
  intros H.
  assert (Hne : suffixes (Examples.loader "/home" "*" [""] false) ≠ ∅).
  { intros Hemp. apply (f_equal elements) in Hemp. vm_compute in Hemp.
    discriminate. }
  specialize (H Hne (Pathlib.mkPath "/" ["home"; ".profile"])).
  assert (Hin : final_extension (Pathlib.mkPath "/" ["home"; ".profile"])
                ∈ suffixes (Examples.loader "/home" "*" [""] false)).
  { apply H. vm_compute. tauto. }
  assert (Hno : bool_decide
                  (final_extension (Pathlib.mkPath "/" ["home"; ".profile"])
                   ∈ suffixes (Examples.loader "/home" "*" [""] false))
                = false) by (vm_compute; reflexivity).
  by apply bool_decide_eq_false_1 in Hno.
Qed.

(* ===================================================================== *)
(** * The theorems at work on the example trees *)
(* ===================================================================== *)

Lemma extensionless_suffixes_nonempty : suffixes Examples.extensionless ≠ ∅.
Proof.
  intros Hemp. apply (f_equal elements) in Hemp. vm_compute in Hemp.
  discriminate.
Qed.

Lemma yielded_suffix_accepted_witness :
  suffixes Examples.extensionless ≠ ∅
  /\ In (Examples.home_path ".profile")
        (items (OnTree.paths Examples.home_fs Examples.extensionless))
  /\ Pathlib.suffix (Examples.home_path ".profile")
     ∈ suffixes Examples.extensionless.
Proof.
  assert (Hin : In (Examples.home_path ".profile")
                   (items (OnTree.paths Examples.home_fs Examples.extensionless)))
    by (vm_compute; auto).
  refine (conj extensionless_suffixes_nonempty (conj Hin _)).
  exact (proj1 (yielded_suffix_accepted
                  (OnTree.Path_glob Examples.home_fs)
                  (OnTree.Path_is_file Examples.home_fs)
                  Examples.extensionless)
               extensionless_suffixes_nonempty _ Hin).
Defined.

Lemma extensionless_file_yielded_witness :
  suffixes Examples.extensionless ≠ ∅
  /\ In (Examples.home_path "README")
        (examined (OnTree.Path_is_file Examples.home_fs)
           (OnTree.Path_glob Examples.home_fs
              (path Examples.extensionless) (glob Examples.extensionless)))
  /\ OnTree.Path_is_file Examples.home_fs (Examples.home_path "README") = Ok true
  /\ Pathlib.suffix (Examples.home_path "README") = ""
  /\ (In (Examples.home_path "README")
         (items (OnTree.paths Examples.home_fs Examples.extensionless))
      <-> "" ∈ suffixes Examples.extensionless).
Proof.
  assert (Hseen : In (Examples.home_path "README")
                     (examined (OnTree.Path_is_file Examples.home_fs)
                        (OnTree.Path_glob Examples.home_fs
                           (path Examples.extensionless)
                           (glob Examples.extensionless))))
    by (vm_compute; auto).
  refine (conj extensionless_suffixes_nonempty
            (conj Hseen (conj eq_refl (conj eq_refl _)))).
  exact (extensionless_file_yielded
           (OnTree.Path_glob Examples.home_fs)
           (OnTree.Path_is_file Examples.home_fs)
           Examples.extensionless (Examples.home_path "README")
           extensionless_suffixes_nonempty Hseen eq_refl eq_refl).
Defined.

Lemma only_regular_files_witness :
  In (Examples.d_path ["a.txt"])
     (items (OnTree.paths Examples.scenario_fs Examples.everything))
  /\ Pathlib.stat Examples.scenario_fs (Examples.d_path ["a.txt"])
     = Some Pathlib.RegularFile.
Proof.
  assert (Hin : In (Examples.d_path ["a.txt"])
                   (items (OnTree.paths Examples.scenario_fs Examples.everything)))
    by (vm_compute; auto).
  refine (conj Hin _).
  exact (proj1 (only_regular_files (fun p : Path => p) Examples.scenario_fs
                  Examples.everything) _ Hin).
Defined.

Lemma progress_protocol_witness :
  show_progress Examples.text_with_progress = true
  /\ py_list (OnTree.paths Examples.scenario_fs Examples.text_with_progress)
     = Ok [Examples.d_path ["a.txt"]; Examples.d_path ["sub"; "c.txt"]]
  /\ List.filter sink_sees
       (observe (OnTree.blobs (fun p : Path => p) Examples.scenario_fs
                   Examples.text_with_progress))
     = [Did (TqdmOpen 2);
        Handed (Examples.d_path ["a.txt"]); Did (TqdmUpdate 1);
        Handed (Examples.d_path ["sub"; "c.txt"]); Did (TqdmUpdate 1);
        Did TqdmClose].
Proof.
  assert (Hps : py_list (OnTree.paths Examples.scenario_fs
                           Examples.text_with_progress)
                = Ok [Examples.d_path ["a.txt"]; Examples.d_path ["sub"; "c.txt"]])
    by (vm_compute; reflexivity).
  refine (conj eq_refl (conj Hps _)).
  exact (progress_protocol
           (OnTree.Path_glob Examples.scenario_fs)
           (OnTree.Path_is_file Examples.scenario_fs)
           (fun p : Path => p)
           Examples.text_with_progress _ eq_refl Hps).
Defined.

Lemma init_accepts_path_likes_witness :
  snd (__init__ (PyInt 3) default_glob None false)
  = Raised (TypeError "Expected str or Path")
  /\ exists msg, TypeError "Expected str or Path" = TypeError msg.
Proof.
  refine (conj eq_refl _).
  exact (proj1 (proj2 (proj2 (init_accepts_path_likes
                                (PyInt 3) default_glob None false)))
               _ eq_refl).
Defined.

Lemma missing_root_uniform_witness :
  Pathlib.is_dir Examples.scenario_fs (path Examples.nowhere) = false
  /\ ((snd (OnTree.count Examples.scenario_fs Examples.nowhere) = Ok 0
       /\ py_list (OnTree.blobs (fun p : Path => p) Examples.scenario_fs
                     Examples.nowhere) = Ok [])
      \/ (exists e,
             snd (OnTree.count Examples.scenario_fs Examples.nowhere) = Raised e
             /\ py_list (OnTree.blobs (fun p : Path => p) Examples.scenario_fs
                           Examples.nowhere) = Raised e
             /\ items (OnTree.blobs (fun p : Path => p) Examples.scenario_fs
                         Examples.nowhere) = [])).
Proof.
  refine (conj eq_refl _).
  exact (missing_root_uniform (fun p : Path => p) Examples.scenario_fs
           Examples.nowhere eq_refl).
Defined.

Lemma enumeration_is_lazy_witness :
  show_progress Examples.everything = false
  /\ OnTree.Path_glob Examples.scenario_fs
       (path Examples.everything) (glob Examples.everything)
     = prepend ([([Examples.d_path ["a.txt"]], Examples.d_path ["a.txt"])]
                ++ [([Examples.d_path ["b.md"]], Examples.d_path ["b.md"])])
               Examples.after_b_md
  /\ kept (OnTree.Path_is_file Examples.scenario_fs) Examples.everything
          (Examples.d_path ["b.md"]) = true
  /\ advance 2 (OnTree.blobs (fun p : Path => p) Examples.scenario_fs
                  Examples.everything)
     = ([GlobWork (Examples.d_path ["a.txt"]); IsFile (Examples.d_path ["a.txt"]);
         FromPath (Examples.d_path ["a.txt"]);
         GlobWork (Examples.d_path ["b.md"]); IsFile (Examples.d_path ["b.md"]);
         FromPath (Examples.d_path ["b.md"])],
        [Examples.d_path ["a.txt"]; Examples.d_path ["b.md"]],
        blobs_of (fun p : Path => p)
          (yield_paths_loop (OnTree.Path_is_file Examples.scenario_fs)
             Examples.everything [] Examples.after_b_md)).
Proof.
  assert (Hglob : OnTree.Path_glob Examples.scenario_fs
                    (path Examples.everything) (glob Examples.everything)
                  = prepend ([([Examples.d_path ["a.txt"]], Examples.d_path ["a.txt"])]
                             ++ [([Examples.d_path ["b.md"]], Examples.d_path ["b.md"])])
                            Examples.after_b_md)
    by (vm_compute; reflexivity).
  assert (Hkept : kept (OnTree.Path_is_file Examples.scenario_fs)
                       Examples.everything (Examples.d_path ["b.md"]) = true)
    by (vm_compute; reflexivity).
  refine (conj eq_refl (conj Hglob (conj Hkept _))).
  exact (proj2 (enumeration_is_lazy
                  (OnTree.Path_glob Examples.scenario_fs)
                  (OnTree.Path_is_file Examples.scenario_fs)
                  (fun p : Path => p)
                  Examples.everything
                  [([Examples.d_path ["a.txt"]], Examples.d_path ["a.txt"])]
                  [Examples.d_path ["b.md"]] (Examples.d_path ["b.md"])
                  Examples.after_b_md eq_refl Hglob
                  (fun q _ => ex_intro _ (Pathlib.is_file Examples.scenario_fs q)
                                       eq_refl)
                  Hkept)).
Defined.

Lemma hidden_directories_are_searched_witness :
  glob Examples.everything = default_glob
  /\ Pathlib.stat Examples.hidden_dir_fs (path Examples.everything)
     = Some (Pathlib.Directory
               [(".hiddendir", Pathlib.Directory [("a.txt", Pathlib.RegularFile)])])
  /\ below (Pathlib.Directory
              [(".hiddendir", Pathlib.Directory [("a.txt", Pathlib.RegularFile)])])
           [".hiddendir"]
           (Pathlib.Directory [("a.txt", Pathlib.RegularFile)])
  /\ not_hidden "a.txt" = true
  /\ In (Examples.d_path [".hiddendir"; "a.txt"])
        (items (OnTree.paths Examples.hidden_dir_fs Examples.everything))
  /\ snd (OnTree.count Examples.hidden_dir_fs Examples.everything)
     = Ok (length (items (OnTree.paths Examples.hidden_dir_fs
                            Examples.everything))).
Proof.
  assert (Hbelow : below (Pathlib.Directory
                            [(".hiddendir",
                              Pathlib.Directory [("a.txt", Pathlib.RegularFile)])])
                         [".hiddendir"]
                         (Pathlib.Directory [("a.txt", Pathlib.RegularFile)])).
  { simpl. do 2 eexists. split; [reflexivity|].
    split; [left; reflexivity|]. split; reflexivity. }
  assert (Hsuffix : suffix_rejected Examples.everything
                      (descendant (path Examples.everything)
                                  ([".hiddendir"] ++ ["a.txt"])) = false)
    by (vm_compute; reflexivity).
  pose proof (hidden_directories_are_searched (fun p : Path => p)
                Examples.hidden_dir_fs Examples.everything _ [".hiddendir"]
                [("a.txt", Pathlib.RegularFile)] "a.txt"
                eq_refl eq_refl Hbelow eq_refl (or_introl eq_refl) eq_refl
                eq_refl Hsuffix) as (_ & Hin & Hcount & _).
  exact (conj eq_refl (conj eq_refl (conj Hbelow (conj eq_refl
          (conj Hin Hcount))))).
Defined.

Lemma star_yields_every_file_of_root_witness :
  Permutation (rev Examples.scenario_entries) Examples.scenario_entries
  /\ snd (OnTree.count (Examples.d_tree (rev Examples.scenario_entries))
            (Examples.loader "/d" "*" [] true)) = Ok 3.
Proof.
  assert (Hperm : Permutation (rev Examples.scenario_entries)
                              Examples.scenario_entries)
    by apply Permutation_sym, Permutation_rev.
  refine (conj Hperm _).
  exact (proj1 (proj2 (star_yields_every_file_of_root (fun p : Path => p)
                         (rev Examples.scenario_entries) true Hperm))).
Defined.

(* ===================================================================== *)
(** * Further properties of the loader over any traversal *)
(* ===================================================================== *)

Section LoaderMore.

Variable Path_glob : Path -> string -> gen Path Path.
Variable Path_is_file : Path -> result bool.

Local Abbreviation yield_paths := (_yield_paths Path_glob Path_is_file).
Local Abbreviation count_files := (count_matching_files Path_glob Path_is_file).
Local Abbreviation loop := (yield_paths_loop Path_is_file).

Lemma filter_all {A} (f : A -> bool) (l : list A) :
  forallb f l = true -> List.filter f l = l.
Proof.
  induction l as [|a l IH]; simpl; [reflexivity|].
  intros [-> Hl]%andb_true_iff. by rewrite IH.
Qed.

Lemma glob_work_fs_work (w : list Path) : forallb fs_work (map GlobWork w) = true.
Proof. by induction w. Qed.

Lemma glob_work_no_calls (w : list Path) : is_file_calls (map GlobWork w) = [].
Proof. by induction w. Qed.

Lemma is_file_calls_app w1 w2 :
  is_file_calls (w1 ++ w2) = is_file_calls w1 ++ is_file_calls w2.
Proof. unfold is_file_calls. apply flat_map_app. Qed.

Lemma loop_fs_work self done g :
  forallb fs_work done = true ->
  forallb fs_work (trace (loop self done g)) = true.
Proof.
  revert done; induction g as [w p rest IH | w | w e]; intros done Hd; simpl.
  - assert (Hd' : forallb fs_work (done ++ map GlobWork w ++ [IsFile p]) = true).
    { rewrite !forallb_app, Hd, glob_work_fs_work. reflexivity. }
    destruct (Path_is_file p) as [[|]|e]; simpl; auto.
    destruct (suffix_rejected self p); simpl; auto.
    rewrite forallb_app, Hd'. simpl. by apply IH.
  - by rewrite forallb_app, Hd, glob_work_fs_work.
  - by rewrite forallb_app, Hd, glob_work_fs_work.
Qed.

Lemma loop_is_file_calls self done g :
  is_file_calls (trace (loop self done g))
  = is_file_calls done ++ examined Path_is_file g.
Proof.
  revert done; induction g as [w p rest IH | w | w e]; intros done; simpl.
  - assert (Hd : is_file_calls (done ++ map GlobWork w ++ [IsFile p])
                 = is_file_calls done ++ [p]).
    { by rewrite !is_file_calls_app, glob_work_no_calls. }
    destruct (Path_is_file p) as [[|]|e]; simpl.
    + destruct (suffix_rejected self p); simpl.
      * by rewrite IH, Hd, <- app_assoc.
      * by rewrite is_file_calls_app, IH, Hd, <- app_assoc.
    + by rewrite IH, Hd, <- app_assoc.
    + by rewrite Hd.
  - by rewrite is_file_calls_app, glob_work_no_calls, !app_nil_r.
  - by rewrite is_file_calls_app, glob_work_no_calls, !app_nil_r.
Qed.

(** X1.  Counting stays on the file system: the work of
    [count_matching_files] consists of the glob generator's work and calls
    of [is_file] only (no blob is made, no progress bar is touched), and
    [is_file] is called once on each path the traversal reaches, in
    order. *)
Theorem count_only_inspects (self : FileSystemBlobLoader) :
  forallb fs_work (fst (count_files self)) = true
  /\ is_file_calls (fst (count_files self))
     = examined Path_is_file (Path_glob (path self) (glob self)).
Proof.
  unfold count_matching_files. rewrite count_loop_work. split.
  - by apply loop_fs_work.
  - apply (loop_is_file_calls self []).
Qed.

(** X2.  The paths are yielded in the order in which the glob generator
    produces them, and nothing is yielded that it did not produce. *)
Theorem yielded_in_glob_order (self : FileSystemBlobLoader) :
  sublist (items (yield_paths self))
          (items (Path_glob (path self) (glob self))).
Proof.
  unfold _yield_paths. generalize (@nil event).
  induction (Path_glob (path self) (glob self)) as [w p rest IH | w | w e];
    intros done; simpl; [|constructor..].
  destruct (Path_is_file p) as [[|]|e]; simpl.
  - destruct (suffix_rejected self p); simpl.
    + by apply sublist_cons.
    + by apply sublist_skip.
  - by apply sublist_cons.
  - apply sublist_nil_l.
Qed.

(** X3.  A suffix filter only removes: the paths yielded with [suffixes]
    are those yielded without, minus the ones whose suffix is rejected. *)
Theorem suffix_filter_only_removes (self : FileSystemBlobLoader) :
  items (yield_paths self)
  = List.filter (fun p => negb (suffix_rejected self p))
                (items (yield_paths (without_suffixes self))).
Proof.
  rewrite !yield_paths_items. simpl.
  induction (examined Path_is_file (Path_glob (path self) (glob self)))
    as [|p l IH]; [reflexivity|].
  simpl. rewrite (kept_no_suffixes Path_is_file (without_suffixes self))
    by reflexivity.
  unfold kept at 1, regular.
  destruct (Path_is_file p) as [[|]|e]; simpl; auto.
  destruct (suffix_rejected self p); simpl; by rewrite IH.
Qed.

Context {Blob : Type}.
Variable Blob_from_path : Path -> Blob.

Local Abbreviation blobs := (yield_blobs Blob_from_path Path_glob Path_is_file).

(** X4.  When the traversal completes, the blobs handed over are
    [Blob.from_path] of the yielded paths, in order, whether progress is
    reported or not. *)
Theorem blobs_follow_paths (self : FileSystemBlobLoader) (ps : list Path) :
  py_list (yield_paths self) = Ok ps ->
  py_list (blobs self) = Ok (map Blob_from_path ps).
Proof.
  unfold py_list. rewrite yield_blobs_outcome.
  destruct (outcome (yield_paths self)) eqn:Hout; [discriminate|].
  intros [= <-]. by rewrite yield_blobs_items.
Qed.

(** X5.  When the traversal fails, progress reporting changes what the
    consumer gets: with [show_progress] the failure of the counting pass is
    raised by the first [next()], after a complete but fruitless traversal,
    with no blob made and no progress bar created; without it, the blobs of
    the paths yielded before the failure are handed over first. *)
Theorem failing_traversal (self : FileSystemBlobLoader) (e : exn) :
  outcome (yield_paths self) = Some e ->
  (show_progress self = true ->
   blobs self = GRaise (trace (yield_paths self)) e)
  /\ (show_progress self = false ->
      items (blobs self) = map Blob_from_path (items (yield_paths self))
      /\ outcome (blobs self) = Some e).
Proof.
  intros Hout. split; intros Hshow; unfold yield_blobs; rewrite Hshow.
  - pose proof (count_files_result Path_glob Path_is_file self) as Hres.
    pose proof (count_loop_work (yield_paths self) 0) as Hwork.
    fold (count_files self) in Hwork. rewrite Hout in Hres.
    destruct (count_files self) as [w r]. simpl in *. by subst.
  - by rewrite blobs_of_items, blobs_of_outcome.
Qed.

Lemma blobs_of_fs_work (g : gen event Path) :
  forallb fs_work (trace g) = true ->
  List.filter fs_work (trace (blobs_of Blob_from_path g)) = trace g.
Proof.
  induction g as [w p rest IH | w | w e]; simpl; try apply filter_all.
  rewrite forallb_app. intros [Hw Hrest]%andb_true_iff.
  rewrite !List.filter_app, (filter_all _ _ Hw), (IH Hrest). simpl.
  by rewrite app_nil_r.
Qed.

Lemma blobs_with_progress_fs_work done (g : gen event Path) :
  forallb fs_work (trace g) = true ->
  List.filter fs_work (trace (blobs_with_progress Blob_from_path done g))
  = List.filter fs_work done ++ trace g.
Proof.
  revert done; induction g as [w p rest IH | w | w e]; intros done; simpl.
  - rewrite forallb_app. intros [Hw Hrest]%andb_true_iff.
    rewrite !List.filter_app, (filter_all _ _ Hw), (IH _ Hrest). simpl.
    by rewrite !app_nil_r, <- !app_assoc.
  - intros Hw. rewrite !List.filter_app, (filter_all _ _ Hw). simpl.
    by rewrite !app_nil_r.
  - intros Hw. rewrite !List.filter_app, (filter_all _ _ Hw). simpl.
    by rewrite !app_nil_r.
Qed.

(** X6.  Progress reporting doubles the work on the file system: a full
    consumption without [show_progress] does the work of one traversal,
    and with [show_progress] that of two, one after the other (of one only
    when the counting pass fails). *)
Theorem progress_traverses_twice (self : FileSystemBlobLoader) :
  List.filter fs_work (trace (blobs self))
  = if show_progress self
    then match outcome (yield_paths self) with
         | None => trace (yield_paths self) ++ trace (yield_paths self)
         | Some _ => trace (yield_paths self)
         end
    else trace (yield_paths self).
Proof.
  assert (Hfs : forallb fs_work (trace (yield_paths self)) = true)
    by by apply loop_fs_work.
  unfold yield_blobs. destruct (show_progress self).
  - pose proof (count_files_result Path_glob Path_is_file self) as Hres.
    pose proof (count_loop_work (yield_paths self) 0) as Hwork.
    fold (count_files self) in Hwork.
    destruct (count_files self) as [w r]. simpl in Hres, Hwork. subst w r.
    destruct (outcome (yield_paths self)).
    + simpl. by apply filter_all.
    + rewrite (blobs_with_progress_fs_work _ _ Hfs).
      rewrite List.filter_app, (filter_all _ _ Hfs). simpl.
      by rewrite app_nil_r.
  - by apply blobs_of_fs_work.
Qed.

(** X7.  With [show_progress] the enumeration is not lazy: the [next()]
    that produces the first blob has first run the whole counting
    traversal and created the bar with the total. *)
Theorem progress_counts_before_first_blob (self : FileSystemBlobLoader)
    (p : Path) (ps : list Path) :
  show_progress self = true ->
  py_list (yield_paths self) = Ok (p :: ps) ->
  exists w rest,
    advance 1 (blobs self)
    = (trace (yield_paths self) ++ TqdmOpen (length (p :: ps)) :: w,
       [Blob_from_path p], rest).
Proof.
  intros Hshow Hps. unfold py_list in Hps.
  destruct (outcome (yield_paths self)) eqn:Hout; [discriminate|].
  injection Hps as Hps.
  pose proof (count_files_result Path_glob Path_is_file self) as Hres.
  pose proof (count_loop_work (yield_paths self) 0) as Hwork.
  fold (count_files self) in Hwork. rewrite Hout, Hps in Hres.
  unfold yield_blobs. rewrite Hshow.
  destruct (count_files self) as [w r]. simpl in Hres, Hwork. subst w r.
  destruct (yield_paths self) as [w0 q rest | w0 | w0 e0]; try discriminate.
  simpl in Hps. injection Hps as -> Hps.
  do 2 eexists. cbn [blobs_with_progress advance].
  rewrite app_nil_r, <- app_assoc. reflexivity.
Qed.

End LoaderMore.

(* ===================================================================== *)
(** * Further properties of the loader on a directory tree *)
(* ===================================================================== *)

Section TreeMore.

Variable fs : Pathlib.filesystem.

Lemma node_induction (P : Pathlib.node -> Prop) :
  P Pathlib.RegularFile ->
  P Pathlib.SpecialFile ->
  (forall entries,
      List.Forall (fun e => P (snd e)) entries -> P (Pathlib.Directory entries)) ->
  forall n, P n.
Proof.
  intros Hfile Hspecial Hdir. fix IH 1.
  intros [| |entries]; [exact Hfile | exact Hspecial |].
  apply Hdir. induction entries as [|[name child] entries IHentries];
    constructor; [apply IH | apply IHentries].
Qed.

Lemma yield_unseen_mem p ps yielded :
  In p (Pathlib.yield_unseen yielded ps) <-> In p ps /\ p ∉ yielded.
Proof. exact (yield_unseen_In (fun q : Path => q) p ps yielded). Qed.

Lemma descendant_descendant root names names' :
  descendant (descendant root names) names' = descendant root (names ++ names').
Proof. unfold descendant. simpl. by rewrite <- app_assoc. Qed.

Lemma descendant_inj root names names' :
  descendant root names = descendant root names' -> names = names'.
Proof. unfold descendant. intros [= Heq]. by apply app_inv_head in Heq. Qed.

Lemma iterate_directories_below n : forall parent d,
  In d (Pathlib.iterate_directories parent n) ->
  exists names, d = descendant parent names.
Proof.
  induction n as [| |entries IH] using node_induction; intros parent d.
  - intros [<-|[]]. exists []. by rewrite descendant_nil.
  - intros [<-|[]]. exists []. by rewrite descendant_nil.
  - rewrite iterate_directories_unfold. intros [<-|Hin].
    + exists []. by rewrite descendant_nil.
    + apply in_flat_map in Hin as ([name child] & He & Hd).
      rewrite List.Forall_forall in IH. specialize (IH _ He). simpl in IH.
      destruct (Pathlib.is_directory child); [|destruct Hd].
      destruct (IH _ _ Hd) as [names ->].
      exists (name :: names). apply descendant_child.
Qed.

(** Every path a selector chain produces extends the path it starts
    from. *)
Lemma select_from_below sel : forall parent p,
  In p (Pathlib._select_from fs sel parent) ->
  exists names, p = descendant parent names.
Proof.
  induction sel as [|name successor IH|pat successor IH|successor IH];
    intros parent p; cbn [Pathlib._select_from].
  - intros [<-|[]]. exists []. by rewrite descendant_nil.
  - destruct (if Pathlib.dironly successor then _ else _); [|intros []].
    intros [names ->]%IH. exists (name :: names). apply descendant_child.
  - destruct (Pathlib.scandir fs parent) as [entries|]; [|intros []].
    intros ([name child] & _ & Hp)%in_flat_map.
    destruct (_ && _); [destruct Hp|].
    destruct (Pathlib.fnmatch pat name); [|destruct Hp].
    apply IH in Hp as [names ->]. exists (name :: names). apply descendant_child.
  - intros [Hp _]%yield_unseen_mem.
    apply in_flat_map in Hp as (d & Hd & Hp).
    destruct (Pathlib.stat fs parent) as [n|]; [|destruct Hd].
    apply iterate_directories_below in Hd as [ds ->].
    apply IH in Hp as [names ->].
    exists (ds ++ names). apply descendant_descendant.
Qed.

Lemma glob_Ok_inv root pattern ps :
  Pathlib.glob fs root pattern = Ok ps ->
  ps = []
  \/ (Pathlib.is_dir fs root = true
      /\ exists sel, ps = Pathlib._select_from fs sel root).
Proof.
  unfold Pathlib.glob.
  destruct (decide (pattern = "")); [discriminate|].
  destruct (Pathlib.parse_parts pattern) as [root' parts].
  destruct (negb (String.eqb root' "")); [discriminate|].
  destruct parts as [|pat child_parts]; [discriminate|].
  destruct (Pathlib.make_selector pat child_parts) as [sel|e]; [|discriminate].
  intros [= <-]. destruct (Pathlib.is_dir fs root); eauto.
Qed.

Lemma tree_seen_glob root pattern p :
  In p (examined (OnTree.Path_is_file fs) (OnTree.Path_glob fs root pattern)) ->
  exists ps, Pathlib.glob fs root pattern = Ok ps /\ In p ps.
Proof.
  unfold OnTree.Path_glob.
  destruct (Pathlib.glob fs root pattern) as [ps|e]; [|intros []].
  rewrite examined_gen_of_list. eauto.
Qed.

Lemma tree_paths_inv self p :
  In p (items (OnTree.paths fs self)) ->
  Pathlib.is_file fs p = true
  /\ suffix_rejected self p = false
  /\ exists ps, Pathlib.glob fs (path self) (glob self) = Ok ps /\ In p ps.
Proof.
  unfold OnTree.paths. rewrite yield_paths_items, filter_In.
  intros [Hseen Hkept]. apply tree_seen_glob in Hseen.
  unfold kept, OnTree.Path_is_file in Hkept.
  destruct (Pathlib.is_file fs p); [|discriminate].
  apply negb_true_iff in Hkept. auto.
Qed.

(** X8.  Every yielded path lies strictly below the loader's directory: it
    is the loader's path extended by one or more segments, for every
    pattern. *)
Theorem yielded_below_root (self : FileSystemBlobLoader) (p : Path) :
  In p (items (OnTree.paths fs self)) ->
  exists names, names <> [] /\ p = descendant (path self) names.
Proof.
  intros (Hfile & _ & ps & Hglob & Hin)%tree_paths_inv.
  apply glob_Ok_inv in Hglob as [->|(Hdir & sel & ->)]; [destruct Hin|].
  apply select_from_below in Hin as [names ->].
  exists names. split; [|reflexivity]. intros ->.
  rewrite descendant_nil in Hfile.
  unfold Pathlib.is_file, Pathlib.is_dir in *.
  by destruct (Pathlib.stat fs (path self)) as [[| |?]|].
Qed.

(** X9.  The default pattern keeps hidden names out: whatever the tree,
    the final segment of every yielded path is non-empty and does not start
    with a dot. *)
Theorem default_pattern_skips_hidden_names (self : FileSystemBlobLoader)
    (p : Path) :
  glob self = default_glob ->
  In p (items (OnTree.paths fs self)) ->
  not_hidden (Pathlib.name p) = true.
Proof.
  intros Hpat (_ & _ & ps & Hglob & Hin)%tree_paths_inv.
  rewrite Hpat, default_glob_paths in Hglob. injection Hglob as <-.
  destruct (Pathlib.is_dir fs (path self)); [|destruct Hin].
  apply yield_unseen_mem in Hin as [Hin _].
  apply in_flat_map in Hin as (d & _ & Hin).
  cbn [Pathlib._select_from] in Hin.
  destruct (Pathlib.scandir fs d) as [entries|]; [|destruct Hin].
  apply in_flat_map in Hin as ([name child] & _ & Hin).
  cbn [Pathlib.dironly andb] in Hin. rewrite fnmatch_not_hidden in Hin.
  destruct (not_hidden name) eqn:Hname; [|destruct Hin].
  destruct Hin as [<-|[]].
  unfold Pathlib.name, Pathlib.make_child_relpath. simpl.
  by rewrite last_last.
Qed.

(** ** No path twice *)

Lemma yield_unseen_NoDup ps : forall yielded,
  List.NoDup (Pathlib.yield_unseen yielded ps).
Proof.
  induction ps as [|p ps IH]; intros yielded; simpl; [constructor|].
  destruct (decide (p ∈ yielded)); [apply IH|].
  constructor; [|apply IH].
  intros [_ Hp]%yield_unseen_mem. apply Hp. by left.
Qed.

Lemma names_unique_entry name entries child :
  names_unique (Pathlib.Directory entries) ->
  Pathlib.entry name entries = Some child ->
  names_unique child.
Proof.
  intros [_ Hall]. induction entries as [|[n c] entries IH]; simpl;
    [discriminate|].
  destruct Hall as [Hc Hall].
  destruct (String.eqb n name); [by intros [= <-] | by apply IH].
Qed.

Lemma walk_names_unique names : forall above cur n,
  names_unique cur ->
  List.Forall names_unique above ->
  Pathlib.walk above cur names = Some n ->
  names_unique n.
Proof.
  induction names as [|name names IH]; intros above cur n Hcur Habove; simpl.
  - by intros [= <-].
  - destruct cur as [| |entries]; try discriminate.
    destruct (String.eqb name "..").
    + destruct above as [|up above']; [by apply IH|].
      inversion Habove; subst. by apply IH.
    + destruct (Pathlib.entry name entries) as [child|] eqn:Hentry;
        [|discriminate].
      apply IH; [by apply (names_unique_entry name entries) | by constructor].
Qed.

Lemma scandir_names_unique p entries :
  names_unique (Pathlib.fs_root fs) ->
  Pathlib.scandir fs p = Some entries ->
  List.NoDup (map fst entries).
Proof.
  intros Hroot. unfold Pathlib.scandir, Pathlib.stat.
  destruct (Pathlib.walk _ _ _) as [[| |entries']|] eqn:Hwalk; try discriminate.
  intros [= <-].
  by apply (walk_names_unique _ _ _ _ Hroot (List.Forall_nil _)) in Hwalk as [? _].
Qed.

Lemma select_from_NoDup sel :
  names_unique (Pathlib.fs_root fs) ->
  forall parent, List.NoDup (Pathlib._select_from fs sel parent).
Proof.
  intros Hroot.
  induction sel as [|name successor IH|pat successor IH|successor IH];
    intros parent; cbn [Pathlib._select_from].
  - repeat constructor. intros [].
  - destruct (if Pathlib.dironly successor then _ else _);
      [apply IH | constructor].
  - destruct (Pathlib.scandir fs parent) as [entries|] eqn:Hscan;
      [|constructor].
    pose proof (scandir_names_unique _ _ Hroot Hscan) as Hnd. clear Hscan.
    induction entries as [|[name child] entries IHentries]; [constructor|].
    cbn [flat_map]. inversion Hnd as [|? ? Hfresh Hnd']; subst.
    apply List.NoDup_app; [|by apply IHentries|].
    + destruct (_ && _); [constructor|].
      destruct (Pathlib.fnmatch pat name); [apply IH | constructor].
    + intros p Hp Hp'.
      assert (Hhere : exists names, p = descendant parent (name :: names)).
      { destruct (_ && _); [destruct Hp|].
        destruct (Pathlib.fnmatch pat name); [|destruct Hp].
        apply select_from_below in Hp as [names ->].
        exists names. apply descendant_child. }
      destruct Hhere as [names ->].
      apply in_flat_map in Hp' as ([name' child'] & He' & Hp').
      destruct (_ && _); [destruct Hp'|].
      destruct (Pathlib.fnmatch pat name'); [|destruct Hp'].
      apply select_from_below in Hp' as [names' Heq].
      rewrite descendant_child in Heq.
      apply descendant_inj in Heq. injection Heq as -> _.
      apply Hfresh, in_map_iff. by exists (name', child').
  - apply yield_unseen_NoDup.
Qed.

(** X10.  On a tree whose directories list each name once, no path is
    yielded twice, whatever the pattern and the suffixes. *)
Theorem no_path_yielded_twice (self : FileSystemBlobLoader) :
  names_unique (Pathlib.fs_root fs) ->
  List.NoDup (items (OnTree.paths fs self)).
Proof.
  intros Hroot. unfold OnTree.paths. rewrite yield_paths_items.
  apply List.NoDup_filter. unfold OnTree.Path_glob.
  destruct (Pathlib.glob fs (path self) (glob self)) as [ps|e] eqn:Hglob;
    [|constructor].
  rewrite examined_gen_of_list.
  apply glob_Ok_inv in Hglob as [->|(_ & sel & ->)]; [constructor|].
  by apply select_from_NoDup.
Qed.

End TreeMore.

(* ===================================================================== *)
(** * Patterns *)
(* ===================================================================== *)

Section Patterns.

Variable fs : Pathlib.filesystem.
Context {Blob : Type}.
Variable Blob_from_path : Path -> Blob.

Lemma glob_raises_everywhere self e :
  OnTree.Path_glob fs (path self) (glob self) = GRaise [] e ->
  OnTree.count fs self = ([], Raised e)
  /\ OnTree.blobs Blob_from_path fs self = GRaise [] e.
Proof.
  intros Hg.
  unfold OnTree.count, OnTree.blobs, yield_blobs, count_matching_files,
    _yield_paths.
  rewrite Hg. simpl. by destruct (show_progress self).
Qed.

Lemma glob_absolute_pattern root rest :
  Pathlib.glob fs root (String "/" rest)
  = Raised (NotImplementedError "Non-relative patterns are unsupported").
Proof.
  unfold Pathlib.glob, Pathlib.parse_parts.
  destruct (decide (String "/" rest = "")) as [Heq|_]; [discriminate Heq|].
  unfold Pathlib.splitroot.
  change (Ascii.eqb "/" Pathlib.sep) with true. cbv iota.
  by destruct (_ =? 2).
Qed.

(** X11.  A pattern that [glob] refuses is not noticed by the constructor
    but by the first use of the loader: with an empty pattern both
    operations raise [ValueError], with a pattern that starts with a slash
    both raise [NotImplementedError], in either case before any work on the
    file system, before any blob and without a progress bar. *)
Theorem refused_pattern_raises_at_first_use (self : FileSystemBlobLoader) :
  (glob self = "" ->
   OnTree.count fs self
   = ([], Raised (ValueError "Unacceptable pattern: ''"))
   /\ OnTree.blobs Blob_from_path fs self
      = GRaise [] (ValueError "Unacceptable pattern: ''"))
  /\ (forall rest,
        glob self = String "/" rest ->
        OnTree.count fs self
        = ([], Raised (NotImplementedError
                         "Non-relative patterns are unsupported"))
        /\ OnTree.blobs Blob_from_path fs self
           = GRaise [] (NotImplementedError
                          "Non-relative patterns are unsupported")).
Proof.
  split.
  - intros Hpat. apply glob_raises_everywhere.
    unfold OnTree.Path_glob. by rewrite Hpat.
  - intros rest Hpat. apply glob_raises_everywhere.
    unfold OnTree.Path_glob. by rewrite Hpat, glob_absolute_pattern.
Qed.

(** X12.  ["*"] does not recurse: with this pattern the yielded paths are
    exactly the entries of the loader's directory that are regular files
    and pass the suffix filter, hidden ones included. *)
Theorem star_is_one_level (self : FileSystemBlobLoader)
    (entries : list (string * Pathlib.node)) (p : Path) :
  glob self = "*" ->
  Pathlib.scandir fs (path self) = Some entries ->
  (In p (items (OnTree.paths fs self))
   <-> exists name,
         In name (map fst entries)
         /\ p = Pathlib.make_child_relpath (path self) name
         /\ Pathlib.is_file fs p = true
         /\ suffix_rejected self p = false).
Proof.
  intros Hpat Hscan. unfold OnTree.paths.
  rewrite yield_paths_items, Hpat.
  destruct (tree_glob_items fs _ _ _ (star_selects_children _ _ _ Hscan))
    as [-> _].
  rewrite filter_In, in_map_iff. unfold kept, OnTree.Path_is_file. split.
  - intros [([name child] & <- & Hin) Hkept]. exists name. simpl in *.
    split; [apply in_map_iff; by exists (name, child)|].
    split; [reflexivity|].
    destruct (Pathlib.is_file fs _); [|discriminate].
    by apply negb_true_iff in Hkept.
  - intros (name & Hin & -> & Hfile & Hsuffix).
    rewrite Hfile, Hsuffix. split; [|reflexivity].
    apply in_map_iff in Hin as ([name' child] & <- & Hin).
    by exists (name', child).
Qed.

Lemma matches_txt s :
  Pathlib.matches
    [Pathlib.TLit "."; Pathlib.TLit "t"; Pathlib.TLit "x"; Pathlib.TLit "t"] s
  = true ->
  s = ["."; "t"; "x"; "t"]%char.
Proof.
  destruct s as [|c1 [|c2 [|c3 [|c4 [|c5 s]]]]]; simpl;
    rewrite ?andb_false_r; try discriminate.
  intros H. repeat apply andb_true_iff in H as [?%Ascii.eqb_eq H].
  by subst.
Qed.

Lemma fnmatch_txt name :
  Pathlib.fnmatch (Pathlib.translate "*.txt") name = true ->
  exists stem, name = stem +:+ ".txt".
Proof.
  change (Pathlib.translate "*.txt")
    with [Pathlib.TStar; Pathlib.TLit "."%char; Pathlib.TLit "t"%char;
          Pathlib.TLit "x"%char; Pathlib.TLit "t"%char].
  unfold Pathlib.fnmatch.
  induction name as [|c name IH].
  - simpl. discriminate.
  - change (list_ascii_of_string (String c name))
      with (c :: list_ascii_of_string name).
    intros [Hhere|Hlater]%orb_true_iff.
    + apply (matches_txt (c :: list_ascii_of_string name)) in Hhere.
      exists "".
      rewrite <- (string_of_list_ascii_of_string (String c name)).
      change (list_ascii_of_string (String c name))
        with (c :: list_ascii_of_string name).
      by rewrite Hhere.
    + destruct (IH Hlater) as [stem ->]. by exists (String c stem).
Qed.

(** X13.  The pattern of the docstring's first example, ["**/*.txt"],
    yields only files whose name ends in [.txt], whatever the tree. *)
Theorem txt_pattern_yields_txt_names (self : FileSystemBlobLoader) (p : Path) :
  glob self = "**/*.txt" ->
  In p (items (OnTree.paths fs self)) ->
  exists stem, Pathlib.name p = stem +:+ ".txt".
Proof.
  intros Hpat (_ & _ & ps & Hglob & Hin)%tree_paths_inv.
  rewrite Hpat in Hglob.
  change (Pathlib.glob fs (path self) "**/*.txt")
    with (Ok (if Pathlib.is_dir fs (path self)
              then Pathlib.yield_unseen []
                     (flat_map
                        (Pathlib._select_from fs
                           (Pathlib.Wildcard (Pathlib.translate "*.txt")
                                             Pathlib.Terminating))
                        (match Pathlib.stat fs (path self) with
                         | Some n => Pathlib.iterate_directories (path self) n
                         | None => []
                         end))
              else [])) in Hglob.
  injection Hglob as <-.
  destruct (Pathlib.is_dir fs (path self)); [|destruct Hin].
  apply yield_unseen_mem in Hin as [Hin _].
  apply in_flat_map in Hin as (d & _ & Hin).
  cbn [Pathlib._select_from] in Hin.
  destruct (Pathlib.scandir fs d) as [entries|]; [|destruct Hin].
  apply in_flat_map in Hin as ([name child] & _ & Hin).
  cbn [Pathlib.dironly andb] in Hin.
  destruct (Pathlib.fnmatch _ name) eqn:Hname; [|destruct Hin].
  destruct Hin as [<-|[]].
  unfold Pathlib.name, Pathlib.make_child_relpath. simpl.
  rewrite last_last. by apply fnmatch_txt.
Qed.

End Patterns.

(* ===================================================================== *)
(** * Construction, continued *)
(* ===================================================================== *)

(** X14.  [suffixes] is stored as a set: two sequences with the same
    elements, in any order and with any repetitions, give the same loader,
    and [None] gives the same loader as the empty sequence. *)
Theorem init_suffixes_as_set (v : pyobj) (pattern : string)
    (l l' : list string) (progress : bool) :
  (forall x, In x l <-> In x l') ->
  __init__ v pattern (Some l) progress = __init__ v pattern (Some l') progress
  /\ __init__ v pattern None progress = __init__ v pattern (Some []) progress.
Proof.
  intros Hsame. split; [|reflexivity].
  assert (Hset : (list_to_set l : gset string) = list_to_set l').
  { apply set_eq. intros x. rewrite !elem_of_list_to_set, !list_elem_of_In.
    apply Hsame. }
  unfold __init__. simpl. by rewrite Hset.
Qed.

(* ===================================================================== *)
(** * The further theorems at work *)
(* ===================================================================== *)

Lemma blobs_follow_paths_witness :
  py_list (OnTree.paths Examples.scenario_fs Examples.text_with_progress)
  = Ok [Examples.d_path ["a.txt"]; Examples.d_path ["sub"; "c.txt"]]
  /\ py_list (OnTree.blobs (fun p : Path => p) Examples.scenario_fs
                Examples.text_with_progress)
     = Ok [Examples.d_path ["a.txt"]; Examples.d_path ["sub"; "c.txt"]].
Proof.
  assert (Hps : py_list (OnTree.paths Examples.scenario_fs
                           Examples.text_with_progress)
                = Ok [Examples.d_path ["a.txt"]; Examples.d_path ["sub"; "c.txt"]])
    by (vm_compute; reflexivity).
  refine (conj Hps _).
  exact (blobs_follow_paths
           (OnTree.Path_glob Examples.scenario_fs)
           (OnTree.Path_is_file Examples.scenario_fs)
           (fun p : Path => p) Examples.text_with_progress _ Hps).
Defined.

Lemma failing_traversal_witness :
  outcome (_yield_paths Faulty.Path_glob Faulty.Path_is_file Examples.everything)
  = Some (OSError "Permission denied")
  /\ show_progress Examples.everything = false
  /\ items (yield_blobs (fun p : Path => p) Faulty.Path_glob
              Faulty.Path_is_file Examples.everything)
     = map (fun p : Path => p)
           (items (_yield_paths Faulty.Path_glob Faulty.Path_is_file
                     Examples.everything))
  /\ outcome (yield_blobs (fun p : Path => p) Faulty.Path_glob
                Faulty.Path_is_file Examples.everything)
     = Some (OSError "Permission denied").
Proof.
  assert (Hout : outcome (_yield_paths Faulty.Path_glob Faulty.Path_is_file
                            Examples.everything)
                 = Some (OSError "Permission denied"))
    by (vm_compute; reflexivity).
  refine (conj Hout (conj eq_refl _)).
  exact (proj2 (failing_traversal Faulty.Path_glob Faulty.Path_is_file
                  (fun p : Path => p) Examples.everything _ Hout)
               eq_refl).
Defined.

Lemma progress_counts_before_first_blob_witness :
  show_progress Examples.text_with_progress = true
  /\ py_list (OnTree.paths Examples.scenario_fs Examples.text_with_progress)
     = Ok [Examples.d_path ["a.txt"]; Examples.d_path ["sub"; "c.txt"]]
  /\ exists w rest,
       advance 1 (OnTree.blobs (fun p : Path => p) Examples.scenario_fs
                    Examples.text_with_progress)
       = (trace (OnTree.paths Examples.scenario_fs Examples.text_with_progress)
            ++ TqdmOpen 2 :: w,
          [Examples.d_path ["a.txt"]], rest).
Proof.
  assert (Hps : py_list (OnTree.paths Examples.scenario_fs
                           Examples.text_with_progress)
                = Ok [Examples.d_path ["a.txt"]; Examples.d_path ["sub"; "c.txt"]])
    by (vm_compute; reflexivity).
  refine (conj eq_refl (conj Hps _)).
  exact (progress_counts_before_first_blob
           (OnTree.Path_glob Examples.scenario_fs)
           (OnTree.Path_is_file Examples.scenario_fs)
           (fun p : Path => p) Examples.text_with_progress _ _ eq_refl Hps).
Defined.

Lemma yielded_below_root_witness :
  In (Examples.d_path ["sub"; "c.txt"])
     (items (OnTree.paths Examples.scenario_fs Examples.everything))
  /\ exists names,
       names <> []
       /\ Examples.d_path ["sub"; "c.txt"]
          = descendant (path Examples.everything) names.
Proof.
  assert (Hin : In (Examples.d_path ["sub"; "c.txt"])
                   (items (OnTree.paths Examples.scenario_fs Examples.everything)))
    by (vm_compute; auto).
  refine (conj Hin _).
  exact (yielded_below_root Examples.scenario_fs Examples.everything _ Hin).
Defined.

Lemma default_pattern_skips_hidden_names_witness :
  glob Examples.everything = default_glob
  /\ In (Examples.d_path ["b.md"])
        (items (OnTree.paths Examples.scenario_fs Examples.everything))
  /\ not_hidden (Pathlib.name (Examples.d_path ["b.md"])) = true.
Proof.
  assert (Hin : In (Examples.d_path ["b.md"])
                   (items (OnTree.paths Examples.scenario_fs Examples.everything)))
    by (vm_compute; auto).
  refine (conj eq_refl (conj Hin _)).
  exact (default_pattern_skips_hidden_names Examples.scenario_fs
           Examples.everything _ eq_refl Hin).
Defined.

Lemma scenario_names_unique :
  names_unique (Pathlib.fs_root Examples.scenario_fs).
Proof.
  simpl. repeat split; repeat constructor; simpl; intuition discriminate.
Qed.

Lemma no_path_yielded_twice_witness :
  names_unique (Pathlib.fs_root Examples.scenario_fs)
  /\ List.NoDup (items (OnTree.paths Examples.scenario_fs
                          (Examples.loader "/d" "**/**/*" [] false))).
Proof.
  refine (conj scenario_names_unique _).
  exact (no_path_yielded_twice Examples.scenario_fs
           (Examples.loader "/d" "**/**/*" [] false) scenario_names_unique).
Defined.

Lemma refused_pattern_raises_at_first_use_witness :
  glob (Examples.loader "/d" "/etc/*" [] true) = String "/" "etc/*"
  /\ OnTree.count Examples.scenario_fs (Examples.loader "/d" "/etc/*" [] true)
     = ([], Raised (NotImplementedError "Non-relative patterns are unsupported"))
  /\ OnTree.blobs (fun p : Path => p) Examples.scenario_fs
       (Examples.loader "/d" "/etc/*" [] true)
     = GRaise [] (NotImplementedError "Non-relative patterns are unsupported").
Proof.
  refine (conj eq_refl _).
  exact (proj2 (refused_pattern_raises_at_first_use Examples.scenario_fs
                  (fun p : Path => p) (Examples.loader "/d" "/etc/*" [] true))
               "etc/*" eq_refl).
Defined.

Lemma star_is_one_level_witness :
  glob (Examples.loader "/d" "*" [".txt"] false) = "*"
  /\ Pathlib.scandir Examples.scenario_fs
       (path (Examples.loader "/d" "*" [".txt"] false))
     = Some Examples.scenario_entries
  /\ (In (Examples.d_path [".hidden.txt"])
         (items (OnTree.paths Examples.scenario_fs
                   (Examples.loader "/d" "*" [".txt"] false)))
      <-> exists name,
            In name (map fst Examples.scenario_entries)
            /\ Examples.d_path [".hidden.txt"]
               = Pathlib.make_child_relpath
                   (path (Examples.loader "/d" "*" [".txt"] false)) name
            /\ Pathlib.is_file Examples.scenario_fs
                 (Examples.d_path [".hidden.txt"]) = true
            /\ suffix_rejected (Examples.loader "/d" "*" [".txt"] false)
                 (Examples.d_path [".hidden.txt"]) = false).
Proof.
  refine (conj eq_refl (conj eq_refl _)).
  exact (star_is_one_level Examples.scenario_fs
           (Examples.loader "/d" "*" [".txt"] false)
           Examples.scenario_entries (Examples.d_path [".hidden.txt"])
           eq_refl eq_refl).
Defined.

Lemma txt_pattern_yields_txt_names_witness :
  glob (Examples.loader "/d" "**/*.txt" [] false) = "**/*.txt"
  /\ In (Examples.d_path [".hidden.txt"])
        (items (OnTree.paths Examples.scenario_fs
                  (Examples.loader "/d" "**/*.txt" [] false)))
  /\ exists stem,
       Pathlib.name (Examples.d_path [".hidden.txt"]) = stem +:+ ".txt".
Proof.
  assert (Hin : In (Examples.d_path [".hidden.txt"])
                   (items (OnTree.paths Examples.scenario_fs
                             (Examples.loader "/d" "**/*.txt" [] false))))
    by (vm_compute; auto).
  refine (conj eq_refl (conj Hin _)).
  exact (txt_pattern_yields_txt_names Examples.scenario_fs
           (Examples.loader "/d" "**/*.txt" [] false) _ eq_refl Hin).
Defined.

Lemma init_suffixes_as_set_witness :
  (forall x, In x [".txt"; ".md"; ".txt"] <-> In x [".md"; ".txt"])
  /\ __init__ (PyStr "/d") default_glob (Some [".txt"; ".md"; ".txt"]) false
     = __init__ (PyStr "/d") default_glob (Some [".md"; ".txt"]) false.
Proof.
  assert (Hsame : forall x, In x [".txt"; ".md"; ".txt"] <-> In x [".md"; ".txt"])
    by (intros x; simpl; tauto).
  refine (conj Hsame _).
  exact (proj1 (init_suffixes_as_set (PyStr "/d") default_glob
                  [".txt"; ".md"; ".txt"] [".md"; ".txt"] false Hsame)).
Defined.
